(** * The layer stack of gdsfactory: etch resolution, accessors,
      derived geometry and the KLayout 2.5D script

    A shallow embedding of [gdsfactory/technology/layer_stack.py].

    - A [LayerStack] is Python's insertion-ordered [dict[str, LayerLevel]]:
      an association list whose keys are pairwise distinct ([wf_stack]).
    - A layer id is what the field [layer] admits: a pair of integers or a
      member of the layer enumeration, an [int] that carries its pair; a
      dict sees the first through the pair and the second through the int.
    - Thickness and z positions are Python floats: binary64, taken as Rocq's
      primitive floats, with [+] and [-] the IEEE operations.
    - Python's built-in [str] and [round] on floats, the region algebra of the
      geometry kernel and the layer views are collaborators of the code; the
      functions take them as parameters, so every theorem holds whatever
      they compute.  Executable instances are given further down, to run the
      functions on concrete stacks.
    - A raised exception is a value of [exn]; code that can raise returns a
      [result]. *)

From Stdlib Require Import ZArith String Ascii List Floats Lia.
From stdpp Require Import gmap strings list fin_maps pretty.
Import ListNotations.

Set Warnings "-inexact-float".

(** ** Python values *)

(** The exceptions the modelled code can raise. *)
Inductive exn : Type :=
| KeyError_name (key : string)                 (* dict[str, _] lookup *)
| ValueError (key : string) (valid : list string)
| TypeError                                    (* None[0], list - Region *)
| UnboundLocalError.

Inductive result (A : Type) : Type :=
| Ok (a : A)
| Raise (e : exn).
Arguments Ok {A} a.
Arguments Raise {A} e.

Global Instance result_ret : MRet result := λ A a, Ok a.
Global Instance result_bind : MBind result := λ A B k r,
  match r with
  | Ok a => k a
  | Raise e => Raise e
  end.

(** [d[key]] on an insertion-ordered dict. *)
Fixpoint dict_get {V} (key : string) (d : list (string * V)) : option V :=
  match d with
  | [] => None
  | (k, v) :: d' => if decide (k = key) then Some v else dict_get key d'
  end.

(** [d[key].append(v)] on a [defaultdict(list)]: a missing key is created at
    the end of the dict, an existing one keeps its place. *)
Fixpoint dict_append (key v : string) (d : list (string * list string))
  : list (string * list string) :=
  match d with
  | [] => [(key, [v])]
  | (k, vs) :: d' =>
      if decide (k = key) then (k, vs ++ [v]) :: d'
      else (k, vs) :: dict_append key v d'
  end.

(** [l.remove(x)]: drops the first occurrence (the code calls it only
    under [if x in l]). *)
Fixpoint list_remove (x : string) (l : list string) : list string :=
  match l with
  | [] => []
  | y :: l' => if decide (y = x) then l' else y :: list_remove x l'
  end.

(** ** Data model *)

Inductive LayerType := grow | etch | implant | background.

Global Instance LayerType_eq_dec : EqDecision LayerType.
Proof. solve_decision. Defined.

(** A layer id, as the field [layer : kf.LayerEnum | tuple[int, int] | None]
    holds it: the pair (GDS layer, datatype), or a member of the layer
    enumeration of the layout.  [kf.LayerEnum] is an [int] enumeration: a
    member is the index of its layer in the layout and carries the layer
    number and the datatype, which [layer[0]] and [layer[1]] read. *)
Inductive Layer : Type :=
| layer_tuple (l : Z * Z)
| layer_enum (index : Z) (l : Z * Z).

(** [layer[0]] and [layer[1]] *)
Definition layer_pair (l : Layer) : Z * Z :=
  match l with
  | layer_tuple p => p
  | layer_enum _ p => p
  end.

(** A layer id as a dict sees it ([hash] and [==]): a tuple by its
    components, an enumeration member by the [int] it is. *)
Definition LayerKey : Type := (Z * Z) + Z.

Definition layer_key (l : Layer) : LayerKey :=
  match l with
  | layer_tuple p => inl p
  | layer_enum index _ => inr index
  end.

(** The key of [level.layer], which may be [None]. *)
Definition py_key (l : option Layer) : option LayerKey := layer_key <$> l.

(** The fields of [LayerLevel] that the modelled functions read. *)
Record LayerLevel := {
  layer : option Layer;
  thickness : float;
  zmin : float;
  material : option string;
  sidewall_angle : float;
  layer_type : LayerType;
  into : option (list string);
  derived_layer : option (Z * Z);
}.

Definition LayerStack := list (string * LayerLevel).

(** The keys of a dict are distinct. *)
Definition wf_stack (layers : LayerStack) : Prop := NoDup (map fst layers).

(** Truth value of [level.layer]: [None] is false, a pair (a tuple of
    length two) is true, and an enumeration member has the truth value of
    its [int]: false exactly at index 0. *)
Definition layer_truthy (l : option Layer) : bool :=
  match l with
  | None => false
  | Some (layer_tuple _) => true
  | Some (layer_enum index _) => negb (index =? 0)%Z
  end.

(** Truth value of a float: false exactly on [0.0] and [-0.0]. *)
Definition float_truthy (x : float) : bool := negb (PrimFloat.eqb x 0%float).

(** [level.into or []] *)
Definition into_or_empty (level : LayerLevel) : list string :=
  match into level with
  | Some (t :: ts) => t :: ts
  | _ => []
  end.

(** [level.bounds] *)
Definition bounds (level : LayerLevel) : float * float :=
  let a := zmin level in
  let b := PrimFloat.add (zmin level) (thickness level) in
  if PrimFloat.ltb b a then (b, a) else (a, b).

(** [LayerStack.__getitem__] *)
Definition getitem (self : LayerStack) (key : string) : result LayerLevel :=
  match dict_get key self with
  | None => Raise (ValueError key (map fst self))
  | Some level => Ok level
  end.

(** [self.layers[key]]: the plain dict lookup. *)
Definition layers_get (layers : LayerStack) (key : string) : result LayerLevel :=
  match dict_get key layers with
  | None => Raise (KeyError_name key)
  | Some level => Ok level
  end.

(** ** Etch resolution, as written in [get_component_with_derived_layers]
    (lines 387-406) *)

Definition unetched_layers (layers : LayerStack) : list string :=
  map fst (filter (λ p : string * LayerLevel,
    layer_truthy (layer p.2) && bool_decide (layer_type p.2 = grow)) layers).

Definition etch_layers (layers : LayerStack) : list string :=
  map fst (filter (λ p : string * LayerLevel,
    layer_truthy (layer p.2) && bool_decide (layer_type p.2 = etch)) layers).

(** [for layer_name_etched in into: ...] *)
Fixpoint into_loop (layer_name : string) (into : list string)
    (unetched : list string) (unetched_layers_dict : list (string * list string))
  : list string * list (string * list string) :=
  match into with
  | [] => (unetched, unetched_layers_dict)
  | layer_name_etched :: into' =>
      let d := dict_append layer_name_etched layer_name unetched_layers_dict in
      let u := if bool_decide (layer_name_etched ∈ unetched)
               then list_remove layer_name_etched unetched else unetched in
      into_loop layer_name into' u d
  end.

(** [for layer_name in etch_layers: ...] *)
Fixpoint etch_loop (layers : LayerStack) (names : list string)
    (unetched : list string) (unetched_layers_dict : list (string * list string))
  : result (list string * list (string * list string)) :=
  match names with
  | [] => Ok (unetched, unetched_layers_dict)
  | layer_name :: names' =>
      level ← layers_get layers layer_name ;
      let '(u, d) := into_loop layer_name (into_or_empty level)
                       unetched unetched_layers_dict in
      etch_loop layers names' u d
  end.

(** The pair ([unetched_layers], [unetched_layers_dict]) the builder works
    with. *)
Definition derived_classification (layer_stack : LayerStack)
  : result (list string * list (string * list string)) :=
  etch_loop layer_stack (etch_layers layer_stack) (unetched_layers layer_stack) [].

(** ** Etch resolution, as written in [get_klayout_3d_script]
    (lines 199-220) *)

(** [self.layers or {}] *)
Definition layers_or_empty (self : LayerStack) : LayerStack :=
  match self with
  | [] => []
  | _ :: _ => self
  end.

Definition script_unetched_layers (layers : LayerStack) : list string :=
  map fst (filter (λ p : string * LayerLevel,
    layer_truthy (layer p.2) && bool_decide (layer_type p.2 = grow)) layers).

Definition script_etch_layers (layers : LayerStack) : list string :=
  map fst (filter (λ p : string * LayerLevel,
    layer_truthy (layer p.2) && bool_decide (layer_type p.2 = etch)) layers).

Fixpoint script_into_loop (layer_name : string) (into : list string)
    (unetched : list string) (unetched_layers_dict : list (string * list string))
  : list string * list (string * list string) :=
  match into with
  | [] => (unetched, unetched_layers_dict)
  | layer_name_etched :: into' =>
      let d := dict_append layer_name_etched layer_name unetched_layers_dict in
      let u := if bool_decide (layer_name_etched ∈ unetched)
               then list_remove layer_name_etched unetched else unetched in
      script_into_loop layer_name into' u d
  end.

Fixpoint script_etch_loop (layers : LayerStack) (names : list string)
    (unetched : list string) (unetched_layers_dict : list (string * list string))
  : result (list string * list (string * list string)) :=
  match names with
  | [] => Ok (unetched, unetched_layers_dict)
  | layer_name :: names' =>
      level ← layers_get layers layer_name ;
      let '(u, d) := script_into_loop layer_name (into_or_empty level)
                       unetched unetched_layers_dict in
      script_etch_loop layers names' u d
  end.

Definition script_classification (self : LayerStack)
  : result (list string * list (string * list string)) :=
  let layers := layers_or_empty self in
  script_etch_loop layers (script_etch_layers layers)
    (script_unetched_layers layers) [].

(** ** The accessors (lines 121-161) *)

(** [hasattr(level, "operator")]: [LayerLevel] declares no such field. *)
Definition has_operator (level : LayerLevel) : bool := false.

Definition get_layer_to_thickness (self : LayerStack)
  : gmap (option LayerKey) float :=
  foldl (λ layer_to_thickness level,
    if layer_truthy (layer level) && float_truthy (thickness level)
    then <[py_key (layer level) := thickness level]> layer_to_thickness
    else if has_operator level
    then <[py_key (layer level) := thickness level]> layer_to_thickness
    else layer_to_thickness) ∅ (map snd self).

Definition get_layer_to_zmin (self : LayerStack)
  : gmap (option LayerKey) float :=
  foldl (λ d level,
    if float_truthy (thickness level)
    then <[py_key (layer level) := zmin level]> d
    else d) ∅ (map snd self).

Definition get_layer_to_material (self : LayerStack)
  : gmap (option LayerKey) (option string) :=
  foldl (λ d level,
    if float_truthy (thickness level)
    then <[py_key (layer level) := material level]> d
    else d) ∅ (map snd self).

Definition get_layer_to_sidewall_angle (self : LayerStack)
  : gmap (option LayerKey) float :=
  foldl (λ d level,
    if float_truthy (thickness level)
    then <[py_key (layer level) := sidewall_angle level]> d
    else d) ∅ (map snd self).

(** ** Text helpers *)

(** The line feed ["\n"]. *)
Definition nl : string := String "010"%char "".

(** [str(x)] of an [int]. *)
Definition str_int (z : Z) : string := pretty z.

(** [str(i)] of a loop index. *)
Definition str_nat (n : nat) : string := pretty n.

(** [str(x)] of a [str | None]. *)
Definition str_opt (o : option string) : string :=
  match o with Some s => s | None => "None" end.

(** [s.split(".")] *)
Fixpoint split_dot (s : string) : list string :=
  match s with
  | EmptyString => [""]
  | String c s' =>
      if Ascii.eqb c "."%char then "" :: split_dot s'
      else match split_dot s' with
           | h :: t => String c h :: t
           | [] => [String c ""]
           end
  end.

(** [len(s.split(".")[-1])] *)
Definition decimals_of (s : string) : nat :=
  String.length (List.last (split_dot s) "").

(** Modelled from the spec: the layer views ([gdsfactory.technology.LayerViews],
    not part of the sources at hand).  [get_from_tuple(layer)] looks the display
    properties of a physical layer id, the pair (layer, datatype), up; they
    may carry a colour with a fill and a frame, given here by their text. *)
Record Color := { fill : string; frame : string }.
Definition LayerViews := (Z * Z) → option Color.

(** ** The KLayout 2.5D script (lines 186-353) *)

Section Script.

(** [str] (and f-string rendering) of a float, and [round(x, ndigits)]. *)
Variable float_str : float → string.
Variable py_round : float → nat → float.

(** The [if layer_views: ...] block that ends every [z(...)] statement,
    up to the closing parenthesis. *)
Definition style (layer_views : option LayerViews) (layer : Layer) : string :=
  match layer_views with
  | None => ""
  | Some lv =>
      ", " +:+
      match lv (layer_pair layer) with
      | None => ""
      | Some color =>
          if bool_decide (fill color = frame color)
          then "color: " +:+ fill color
          else "fill: " +:+ fill color +:+ ", " +:+ "frame: " +:+ frame color
      end
  end +:+ ")".

(** The text [txt] of a [z(...)] statement, written out three times in
    the source, followed by the line feed. *)
Definition z_statement (layer_views : option LayerViews) (layer_name : string)
    (zstart zstop : float) (name : string) (layer : Layer) : string :=
  "z(" +:+ layer_name +:+ ", " +:+
  "zstart: " +:+ float_str zstart +:+ ", " +:+
  "zstop: " +:+ float_str zstop +:+ ", " +:+
  "name: '" +:+ name +:+ "'" +:+ style layer_views layer +:+ nl.

(** [f"{layer_name} = input({level.layer[0]}, {level.layer[1]})"] for
    the levels that pass [if level.layer]. *)
Fixpoint input_lines (layers : LayerStack) : list string :=
  match layers with
  | [] => []
  | (layer_name, level) :: layers' =>
      match layer level with
      | Some l =>
          if layer_truthy (layer level) then
            (layer_name +:+ " = input(" +:+ str_int (layer_pair l).1 +:+ ", " +:+
             str_int (layer_pair l).2 +:+ ")")
            :: input_lines layers'
          else input_lines layers'
      | None => input_lines layers'
      end
  end.

(** [# define unetched layers] *)
Fixpoint unetched_definitions (unetched_layers_dict : list (string * list string))
    (out : string) : string :=
  match unetched_layers_dict with
  | [] => out
  | (layer_name_etched, etching_layers) :: d' =>
      let etching_layers := String.concat " - " etching_layers in
      unetched_definitions d'
        (out +:+ "unetched_" +:+ layer_name_etched +:+ " = " +:+
         layer_name_etched +:+ " - " +:+ etching_layers +:+ nl)
  end.

(** [for i, layer1 in enumerate(into): out += f"slab_... = ..."] *)
Fixpoint slab_definitions_into (layer_name : string) (i : nat)
    (into : list string) (out : string) : string :=
  match into with
  | [] => out
  | layer1 :: into' =>
      slab_definitions_into layer_name (S i) into'
        (out +:+ "slab_" +:+ layer1 +:+ "_" +:+ layer_name +:+ "_" +:+ str_nat i +:+
         " = " +:+ layer1 +:+ " &amp; " +:+ layer_name +:+ nl)
  end.

(** [# define slabs] *)
Fixpoint slab_definitions (layers : LayerStack) (out : string) : string :=
  match layers with
  | [] => out
  | (layer_name, level) :: layers' =>
      slab_definitions layers'
        (if bool_decide (layer_type level = etch)
         then slab_definitions_into layer_name 0 (into_or_empty level) out
         else out)
  end.

(** The rounded pair ([zmin], [zmax]) of a level (lines 251-256). *)
Definition rounded_bounds (dbu : option float) (level : LayerLevel)
  : float * float :=
  let zmin_ := zmin level in
  let zmax := PrimFloat.add zmin_ (thickness level) in
  match dbu with
  | Some d =>
      if float_truthy d then
        let rnd_pl := decimals_of (float_str d) in
        (py_round zmin_ rnd_pl, py_round zmax rnd_pl)
      else (zmin_, zmax)
  | None => (zmin_, zmax)
  end.

(** The slab statements of one etch level (lines 264-294); the state is
    [out] and the variable [slab_layer_name], unbound at first. *)
Fixpoint z_slabs (layers : LayerStack) (layer_views : option LayerViews)
    (layer_name : string) (level : LayerLevel) (layer : Layer)
    (i : nat) (into : list string) (out : string) (slab_layer_name : option string)
  : result (string * option string) :=
  match into with
  | [] => Ok (out, slab_layer_name)
  | layer1 :: into' =>
      unetched_level ← layers_get layers layer1 ;
      let unetched_zmin := zmin unetched_level in
      let unetched_zmax := PrimFloat.add unetched_zmin (thickness unetched_level) in
      let slab_layer_name :=
        "slab_" +:+ layer1 +:+ "_" +:+ layer_name +:+ "_" +:+ str_nat i in
      let slab_zmin := zmin unetched_level in
      let slab_zmax := PrimFloat.sub unetched_zmax (thickness level) in
      let name :=
        slab_layer_name +:+ ": " +:+ str_opt (material level) +:+ " " +:+
        str_int (layer_pair layer).1 +:+ "/" +:+ str_int (layer_pair layer).2 in
      z_slabs layers layer_views layer_name level layer (S i) into'
        (out +:+ z_statement layer_views slab_layer_name slab_zmin slab_zmax name layer)
        (Some slab_layer_name)
  end.

(** The loop of lines 249-319 over the levels. *)
Fixpoint z_levels (layers : LayerStack) (layer_views : option LayerViews)
    (dbu : option float) (unetched : list string) (items : LayerStack)
    (out : string) (slab_layer_name : option string)
  : result (string * option string) :=
  match items with
  | [] => Ok (out, slab_layer_name)
  | (layer_name, level) :: items' =>
      let '(zmin_, zmax) := rounded_bounds dbu level in
      match layer level with
      | None => z_levels layers layer_views dbu unetched items' out slab_layer_name
      | Some layer =>
          if bool_decide (layer_type level = etch) then
            '(out, slab_layer_name) ←
              z_slabs layers layer_views layer_name level layer 0
                (into_or_empty level) out slab_layer_name ;
            z_levels layers layer_views dbu unetched items' out slab_layer_name
          else if bool_decide (layer_name ∈ unetched) then
            let name :=
              layer_name +:+ ": " +:+ str_opt (material level) +:+ " " +:+
              str_int (layer_pair layer).1 +:+ "/" +:+ str_int (layer_pair layer).2 in
            z_levels layers layer_views dbu unetched items'
              (out +:+ z_statement layer_views layer_name zmin_ zmax name layer)
              slab_layer_name
          else z_levels layers layer_views dbu unetched items' out slab_layer_name
      end
  end.

(** The closing loop over the etched layers (lines 323-351). *)
Fixpoint z_unetched (self : LayerStack) (layer_views : option LayerViews)
    (unetched_layers_dict : list (string * list string))
    (slab_layer_name : option string) (out : string) : result string :=
  match unetched_layers_dict with
  | [] => Ok out
  | (layer_name, _) :: d' =>
      unetched_level ← layers_get self layer_name ;
      let unetched_zmin := zmin unetched_level in
      let unetched_zmax := PrimFloat.add unetched_zmin (thickness unetched_level) in
      match slab_layer_name with
      | None => Raise UnboundLocalError
      | Some _ =>
          match layer unetched_level with
          | None => Raise TypeError
          | Some layer =>
              let unetched_layer_name := "unetched_" +:+ layer_name in
              let name :=
                unetched_layer_name +:+ ": " +:+ str_opt (material unetched_level) +:+
                " " +:+ str_int (layer_pair layer).1 +:+ "/" +:+ str_int (layer_pair layer).2 in
              z_unetched self layer_views d' slab_layer_name
                (out +:+ z_statement layer_views unetched_layer_name
                           unetched_zmin unetched_zmax name layer)
          end
      end
  end.

Definition get_klayout_3d_script (self : LayerStack)
    (layer_views : option LayerViews) (dbu : option float) : result string :=
  let layers := layers_or_empty self in
  '(unetched, unetched_layers_dict) ← script_classification self ;
  let out := String.concat nl (input_lines layers) in
  let out := out +:+ nl in
  let out := out +:+ nl in
  let out := unetched_definitions unetched_layers_dict out in
  let out := out +:+ nl in
  let out := slab_definitions layers out in
  let out := out +:+ nl in
  '(out, slab_layer_name) ←
    z_levels layers layer_views dbu unetched layers out None ;
  let out := out +:+ nl in
  z_unetched self layer_views unetched_layers_dict slab_layer_name out.

End Script.

(** ** The derived-geometry builder (lines 378-457) *)

Section Builder.

(** The geometry kernel: polygons, regions ([kf.kdb.Region]) with their
    operators, and [get_layer], the layer-id resolver of the PDK, applied to
    the value of a field [layer]. *)
Variables Polygon Region Port : Type.
Variable region_new : Region.                       (* kf.kdb.Region()  *)
Variable region_of : list Polygon → Region.         (* kf.kdb.Region(p) *)
Variable region_or : Region → Region → Region.      (* r1 | r2 *)
Variable region_and : Region → Region → Region.     (* r1 & r2 *)
Variable region_sub : Region → Region → Region.     (* r1 - r2 *)
Variable get_layer : option Layer → option Layer.

(** What [shapes(layer).insert(...)] receives: a polygon or a region. *)
Inductive Shape :=
| shape_polygon (p : Polygon)
| shape_region (r : Region).

(** A component, seen through the shapes it holds per layer id (in
    insertion order) and its ports. *)
Record Component := {
  shapes : gmap (option LayerKey) (list Shape);
  ports : list Port;
}.

(** [component.extract(layers)], the "extract polygons for a set of layer
    ids" capability of the component, given the polygons of the component
    and the list of layer ids it is called with. *)
Variable extract :
  gmap (option LayerKey) (list Polygon) → list (option Layer) →
  gmap (option LayerKey) (list Shape).

(** [c.shapes(layer_index).insert(x)] *)
Definition shapes_insert (layer_index : option Layer) (x : Shape)
    (c : gmap (option LayerKey) (list Shape)) : gmap (option LayerKey) (list Shape) :=
  <[py_key layer_index := default [] (c !! py_key layer_index) ++ [x]]> c.

(** Modelled from the spec: the polygons-per-layer snapshot
    [component.get_polygons()] ([gdsfactory.component], not part of the
    sources at hand), a mapping from layer ids to polygons in which an absent
    layer id is "treated as empty, not an error": a [defaultdict(list)],
    whose lookup [polygons_per_layer[key]] of an absent key gives the empty
    list and stores it under the key. *)
Definition snapshot_get (polygons_per_layer : gmap (option LayerKey) (list Polygon))
    (key : option Layer)
  : list Polygon * gmap (option LayerKey) (list Polygon) :=
  match polygons_per_layer !! py_key key with
  | Some polygons => (polygons, polygons_per_layer)
  | None => ([], <[py_key key := []]> polygons_per_layer)
  end.

(** [key in polygons_per_layer] *)
Definition snapshot_has (polygons_per_layer : gmap (option LayerKey) (list Polygon))
    (key : option Layer) : bool :=
  bool_decide (is_Some (polygons_per_layer !! py_key key)).

(** Modelled from the spec: the entries of the table [boolean_operations]
    ([gdsfactory.component], not part of the sources at hand), the boolean
    union, intersection and difference of "polygon-region values": each is the
    operator of the regions applied to its two operands.  An operand that is
    not a region, as a Python list of polygons is, has no such operator: the
    call raises [TypeError]. *)
Inductive Operand :=
| operand_polygons (polygons : list Polygon)
| operand_region (r : Region).

Definition boolean_operation (operator : Region → Region → Region)
    (r1 r2 : Operand) : result Region :=
  match r1, r2 with
  | operand_region a, operand_region b => Ok (operator a b)
  | _, _ => Raise TypeError
  end.

(** [# Define pure grown layers]: the layer ids handed to [extract]. *)
Fixpoint unetched_layer_numbers (layer_stack : LayerStack)
    (polygons_per_layer : gmap (option LayerKey) (list Polygon))
    (unetched : list string) : result (list (option Layer)) :=
  match unetched with
  | [] => Ok []
  | layer_name :: unetched' =>
      level ← layers_get layer_stack layer_name ;
      rest ← unetched_layer_numbers layer_stack polygons_per_layer unetched' ;
      if snapshot_has polygons_per_layer (layer level)
      then Ok (layer level :: rest) else Ok rest
  end.

(** [for polygon in polygons: component_derived.shapes(layer_index).insert(polygon)] *)
Definition insert_polygons (layer_index : option Layer) (polygons : list Polygon)
    (component_derived : gmap (option LayerKey) (list Shape))
  : gmap (option LayerKey) (list Shape) :=
  foldl (λ c polygon, shapes_insert layer_index (shape_polygon polygon) c)
    component_derived polygons.

(** [for etching_layers in unetched_layers: ...] (lines 429-447); the state
    is [layer_index], [polygons_to_remove] and the derived component. *)
Fixpoint etching_loop (layer_stack : LayerStack)
    (polygons_per_layer : gmap (option LayerKey) (list Polygon))
    (polygons : list Polygon) (etching : list string)
    (layer_index : option Layer) (polygons_to_remove : Region)
    (component_derived : gmap (option LayerKey) (list Shape))
  : result (option Layer * Region * gmap (option LayerKey) (list Shape)) :=
  match etching with
  | [] => Ok (layer_index, polygons_to_remove, component_derived)
  | etching_layers :: etching' =>
      level ← layers_get layer_stack etching_layers ;
      let layer := layer level in
      if snapshot_has polygons_per_layer layer then
        let layer_index := get_layer layer in
        let B_polys := (snapshot_get polygons_per_layer layer).1 in
        let r2 := region_of B_polys in
        let polygons_to_remove := region_or polygons_to_remove r2 in
        match derived_layer level with
        | Some _ =>
            r ← boolean_operation region_and
                  (operand_region (region_of polygons))
                  (operand_region (region_of B_polys)) ;
            etching_loop layer_stack polygons_per_layer polygons etching'
              layer_index polygons_to_remove
              (shapes_insert layer_index (shape_region r) component_derived)
        | None =>
            etching_loop layer_stack polygons_per_layer polygons etching'
              layer_index polygons_to_remove component_derived
        end
      else
        etching_loop layer_stack polygons_per_layer polygons etching'
          layer_index polygons_to_remove component_derived
  end.

(** [# Define unetched layers] (lines 420-454).  Line 453 hands the list
    [polygons] itself to the difference, where lines 443-444 wrap both
    operands of the intersection in a region. *)
Fixpoint derive_loop (layer_stack : LayerStack)
    (unetched_layers_dict : list (string * list string))
    (polygons_per_layer : gmap (option LayerKey) (list Polygon))
    (component_derived : gmap (option LayerKey) (list Shape))
  : result (gmap (option LayerKey) (list Shape)) :=
  match unetched_layers_dict with
  | [] => Ok component_derived
  | (unetched_layer_name, etching) :: d' =>
      level ← layers_get layer_stack unetched_layer_name ;
      let layer_index := layer level in
      let '(polygons, polygons_per_layer) :=
        snapshot_get polygons_per_layer layer_index in
      let component_derived :=
        insert_polygons layer_index polygons component_derived in
      '(layer_index, polygons_to_remove, component_derived) ←
        etching_loop layer_stack polygons_per_layer polygons etching
          layer_index region_new component_derived ;
      let '(polygons, polygons_per_layer) :=
        snapshot_get polygons_per_layer (layer level) in
      r ← boolean_operation region_sub
            (operand_polygons polygons) (operand_region polygons_to_remove) ;
      derive_loop layer_stack d' polygons_per_layer
        (shapes_insert layer_index (shape_region r) component_derived)
  end.

(** The component is given by its [get_polygons()] snapshot and its
    ports. *)
Definition get_component_with_derived_layers
    (polygons_per_layer : gmap (option LayerKey) (list Polygon))
    (component_ports : list Port)
    (layer_stack : LayerStack) : result Component :=
  '(unetched, unetched_layers_dict) ← derived_classification layer_stack ;
  numbers ← unetched_layer_numbers layer_stack polygons_per_layer unetched ;
  let component_derived := extract polygons_per_layer numbers in
  component_derived ←
    derive_loop layer_stack unetched_layers_dict polygons_per_layer
      component_derived ;
  Ok {| shapes := component_derived; ports := component_ports |}.

End Builder.

Arguments shape_polygon {Polygon Region} p.
Arguments shape_region {Polygon Region} r.
Arguments shapes {Polygon Region Port} c.
Arguments ports {Polygon Region Port} c.
Arguments shapes_insert {Polygon Region}.
Arguments snapshot_get {Polygon}.
Arguments snapshot_has {Polygon}.
Arguments operand_polygons {Polygon Region} polygons.
Arguments operand_region {Polygon Region} r.
Arguments boolean_operation {Polygon Region}.
Arguments unetched_layer_numbers {Polygon}.
Arguments insert_polygons {Polygon Region}.
Arguments etching_loop {Polygon Region}.
Arguments derive_loop {Polygon Region}.
Arguments get_component_with_derived_layers {Polygon Region Port}.

(** ** An executable reading of Python's [repr] and [round] on floats *)

(** Checked against CPython on a few thousand values; the theorems below
    do not depend on it, they hold for every rendering and rounding. *)

Module PyFloat.

Local Open Scope Z_scope.

(** The least [k] with [num / den < 10 ^ k], for positive [num] and [den]. *)
Definition lt_pow10 (num den k : Z) : bool :=
  if 0 <=? k then num <? 10 ^ k * den else num * 10 ^ (- k) <? den.

Fixpoint decpt_up (fuel : nat) (num den k : Z) : Z :=
  match fuel with
  | O => k
  | S fuel' => if lt_pow10 num den k then k else decpt_up fuel' num den (k + 1)
  end.

Fixpoint decpt_down (fuel : nat) (num den k : Z) : Z :=
  match fuel with
  | O => k
  | S fuel' =>
      if lt_pow10 num den (k - 1) then decpt_down fuel' num den (k - 1) else k
  end.

Definition decpt_of (num den : Z) : Z :=
  let k0 := (Z.log2 num - Z.log2 den) * 30103 / 100000 in
  decpt_down 8 num den (decpt_up 8 num den k0).

(** The finite positive float [m * 2 ^ e] as a fraction over [den], with
    the ends of the interval of reals that round to it. *)
Definition float_interval (m e : Z) : (Z * Z * Z) * Z :=
  let c := if (m =? 2 ^ 52) && (-1074 <? e) then 1 else 2 in
  let E := e - 2 in
  if 0 <=? E
  then (((4 * m - c) * 2 ^ E, 4 * m * 2 ^ E, (4 * m + 2) * 2 ^ E), 1)
  else ((4 * m - c, 4 * m, 4 * m + 2), 2 ^ (- E)).

(** The [n]-digit decimal nearest to the float within its interval, if there
    is one: the digits as an integer and the position of the point. *)
Definition shortest_try (m e : Z) (n : Z) : option (Z * Z) :=
  let '((lo, v, hi), den) := float_interval m e in
  let k := decpt_of v den in
  let s := n - k in
  let S1 := if 0 <=? s then 10 ^ s else 1 in
  let S2 := if 0 <=? s then 1 else 10 ^ (- s) in
  let den' := den * S2 in
  let inside c :=
    if Z.even m then (lo * S1 <=? c * den') && (c * den' <=? hi * S1)
    else (lo * S1 <? c * den') && (c * den' <? hi * S1) in
  let d1 := (v * S1) / den' in
  let d2 := d1 + 1 in
  let dist c := Z.abs (c * den' - v * S1) in
  let pick :=
    match inside d1, inside d2 with
    | true, true =>
        if dist d1 <? dist d2 then Some d1
        else if dist d2 <? dist d1 then Some d2
        else if Z.even d1 then Some d1 else Some d2
    | true, false => Some d1
    | false, true => Some d2
    | false, false => None
    end in
  match pick with
  | Some d => if 0 <? d then Some (d, k) else None
  | None => None
  end.

Fixpoint shortest_from (fuel : nat) (m e n : Z) : Z * Z * Z :=
  match fuel with
  | O => (m, 0, n)
  | S fuel' =>
      match shortest_try m e n with
      | Some (d, k) => (d, k, n)
      | None => shortest_from fuel' m e (n + 1)
      end
  end.

Fixpoint strip_zeros (fuel : nat) (d : Z) : Z :=
  match fuel with
  | O => d
  | S fuel' => if (d mod 10 =? 0) && (0 <? d) then strip_zeros fuel' (d / 10) else d
  end.

Fixpoint zeros (n : nat) : string :=
  match n with O => "" | S n' => String "0" (zeros n') end.

(** Digits and point position to text, as [repr] lays them out. *)
Definition repr_layout (digits : string) (decpt : Z) : string :=
  let n := Z.of_nat (String.length digits) in
  if (decpt <=? -4) || (16 <? decpt) then
    let ex := decpt - 1 in
    let mant :=
      match digits with
      | String c EmptyString => digits
      | String c rest => String c ("." +:+ rest)
      | EmptyString => ""
      end in
    let exs := pretty (Z.abs ex) in
    mant +:+ "e" +:+ (if ex <? 0 then "-" else "+") +:+
    (if Z.abs ex <? 10 then "0" +:+ exs else exs)
  else if decpt <=? 0 then
    "0." +:+ zeros (Z.to_nat (- decpt)) +:+ digits
  else if n <=? decpt then
    digits +:+ zeros (Z.to_nat (decpt - n)) +:+ ".0"
  else
    substring 0 (Z.to_nat decpt) digits +:+ "." +:+
    substring (Z.to_nat decpt) (Z.to_nat (n - decpt)) digits.

Definition repr_finite (m e : Z) : string :=
  let '(d, k, n) := shortest_from 17 m e 1 in
  (* the candidate may be 10 ^ n: the point moves by the extra digit *)
  let full := pretty d in
  let decpt := k + (Z.of_nat (String.length full) - n) in
  repr_layout (pretty (strip_zeros 20 d)) decpt.

(** [repr(x)], which is also [str(x)] and the f-string rendering. *)
Definition float_repr (x : float) : string :=
  match Prim2SF x with
  | S754_nan => "nan"
  | S754_infinity s => if s then "-inf" else "inf"
  | S754_zero s => if s then "-0.0" else "0.0"
  | S754_finite s m e =>
      (if s then "-" else "") +:+ repr_finite (Z.pos m) e
  end.

(** [round(x, ndigits)] for [ndigits >= 0]: the decimal with [ndigits] places
    nearest to the exact value of [x] (ties to even), then the float nearest
    to that decimal. *)
Definition float_round (x : float) (ndigits : nat) : float :=
  match Prim2SF x with
  | S754_finite s m e =>
      if (323 <? ndigits)%nat then x else
      let p := 10 ^ Z.of_nat ndigits in
      let num := if 0 <=? e then Z.pos m * 2 ^ e * p else Z.pos m * p in
      let den := if 0 <=? e then 1 else 2 ^ (- e) in
      let q := num / den in
      let r := num mod den in
      let K := if 2 * r <? den then q
               else if den <? 2 * r then q + 1
               else if Z.even q then q else q + 1 in
      match K, p with
      | Z.pos K', Z.pos p' =>
          SF2Prim (SFdiv 53 1024 (S754_finite s K' 0) (S754_finite false p' 0))
      | _, _ => if s then (-0)%float else 0%float
      end
  | _ => x
  end.

End PyFloat.

(** ** An executable geometry kernel: regions as finite sets of unit cells *)

Module Cells.

Definition Polygon := Z.
Definition Region := list Z.
Definition Port := string.

Definition region_new : Region := [].
Definition region_of (polygons : list Polygon) : Region := remove_dups polygons.
Definition region_or (r1 r2 : Region) : Region := list_union r1 r2.
Definition region_and (r1 r2 : Region) : Region := list_intersection r1 r2.
Definition region_sub (r1 r2 : Region) : Region := list_difference r1 r2.
Definition get_layer (layer : option Layer) : option Layer := layer.

(** Modelled from the spec: [Component.extract] ([gdsfactory.component], not
    part of the sources at hand), the "extract polygons for a set of layer
    ids" capability: a new container with the polygons of the requested
    layer ids, copied as they are. *)
Definition extract (polygons_per_layer : gmap (option LayerKey) (list Polygon))
    (layers : list (option Layer))
  : gmap (option LayerKey) (list (Shape Polygon Region)) :=
  map shape_polygon <$>
    filter (λ kv : option LayerKey * list Polygon, kv.1 ∈ map py_key layers)
      polygons_per_layer.

(** The builder over this kernel. *)
Definition derive (polygons_per_layer : gmap (option LayerKey) (list Polygon))
    (component_ports : list Port) (layer_stack : LayerStack)
  : result (Component Polygon Region Port) :=
  get_component_with_derived_layers
    region_new region_of region_or region_and region_sub get_layer extract
    polygons_per_layer component_ports layer_stack.

End Cells.

(** ** The classification in the words of the specification *)

(** [grow_layers]: the names with [layer_type] grow and a layer id that
    passes the truth test, in stack order. *)
Definition grow_layers (layers : LayerStack) : list string :=
  map fst (filter (λ p : string * LayerLevel,
    layer_truthy (layer p.2) ∧ layer_type p.2 = grow) layers).


(** The etch layers: [layer_type] etch and a layer id that passes the truth
    test. *)
Definition etch_levels (layers : LayerStack) : LayerStack :=
  filter (λ p : string * LayerLevel,
    layer_truthy (layer p.2) ∧ layer_type p.2 = etch) layers.

(** Every pair (target, etch layer) such that the etch layer's [into] names
    the target: etch layers in stack order, each [into] in declaration
    order; an absent [into] gives nothing. *)
Definition etch_references (layers : LayerStack) : list (string * string) :=
  flat_map (λ p : string * LayerLevel,
    map (λ target, (target, p.1)) (default [] (into p.2))) (etch_levels layers).

(** The etch layers that reference a target. *)
Definition etched_by (layers : LayerStack) (target : string) : list string :=
  map snd (filter (λ r : string * string, r.1 = target) (etch_references layers)).

(** The grow layers that no etch layer targets. *)
Definition pure_grow_layers (layers : LayerStack) : list string :=
  filter (λ name, name ∉ map fst (etch_references layers)) (grow_layers layers).

(** The layer ids of the grow layers that are keys of the snapshot, in
    stack order. *)
Definition grow_layer_ids {Polygon : Type} (layers : LayerStack)
    (polygons_per_layer : gmap (option LayerKey) (list Polygon))
  : list (option Layer) :=
  map (λ p : string * LayerLevel, layer p.2)
    (filter (λ p : string * LayerLevel,
       layer_truthy (layer p.2) ∧ layer_type p.2 = grow ∧
       is_Some (polygons_per_layer !! py_key (layer p.2))) layers).

(** ** The script in the words of the specification *)

Definition concat_str (lines : list string) : string :=
  foldr String.append "" lines.

(** [enumerate(l, i)] *)
Fixpoint enumerate_from {A} (i : nat) (l : list A) : list (nat * A) :=
  match l with
  | [] => []
  | x :: l' => (i, x) :: enumerate_from (S i) l'
  end.

Definition slab_name (target etch_name : string) (i : nat) : string :=
  "slab_" +:+ target +:+ "_" +:+ etch_name +:+ "_" +:+ str_nat i.

(** [unetched_X = X - etch1 - etch2 - ...] *)
Definition unetched_definition_line (entry : string * list string) : string :=
  "unetched_" +:+ entry.1 +:+ " = " +:+ entry.1 +:+ " - " +:+
  String.concat " - " entry.2 +:+ nl.

(** The slab definition as the source spells it. *)
Definition slab_definition_line (etch_name : string) (it : nat * string) : string :=
  slab_name it.2 etch_name it.1 +:+ " = " +:+ it.2 +:+ " &amp; " +:+ etch_name +:+ nl.

(** The slab definition with the one-character operator. *)
Definition slab_definition_line_ampersand (etch_name : string) (it : nat * string)
  : string :=
  slab_name it.2 etch_name it.1 +:+ " = " +:+ it.2 +:+ " & " +:+ etch_name +:+ nl.

(** The slab definitions: every level of type etch, in stack order, each
    target of its [into] with its index. *)
Definition slab_definition_lines (layers : LayerStack) : list string :=
  flat_map (λ p : string * LayerLevel,
    if bool_decide (layer_type p.2 = etch)
    then map (slab_definition_line p.1) (enumerate_from 0 (into_or_empty p.2))
    else []) layers.

(** Whether [needle] occurs in [text]. *)
Definition occurs_in (needle text : string) : bool :=
  match String.index 0 needle text with Some _ => true | None => false end.

Section ScriptSpec.

Variable float_str : float → string.
Variable py_round : float → nat → float.

(** The label [<name>: <material> <layer>/<datatype>] of a statement. *)
Definition z_label (name : string) (level : LayerLevel) (layer : Layer) : string :=
  name +:+ ": " +:+ str_opt (material level) +:+ " " +:+
  str_int (layer_pair layer).1 +:+ "/" +:+ str_int (layer_pair layer).2.

(** A slab spans from the target's [zmin] to the target's
    [zmin + thickness] minus the etch layer's thickness. *)
Definition slab_z_line (layer_views : option LayerViews) (layers : LayerStack)
    (etch_name : string) (etch_level : LayerLevel) (layer : Layer)
    (it : nat * string) : string :=
  match dict_get it.2 layers with
  | Some target =>
      z_statement float_str layer_views (slab_name it.2 etch_name it.1)
        (zmin target)
        (PrimFloat.sub (PrimFloat.add (zmin target) (thickness target))
           (thickness etch_level))
        (z_label (slab_name it.2 etch_name it.1) etch_level layer) layer
  | None => ""
  end.

(** The statements of one level in the main loop. *)
Definition level_z_lines (layer_views : option LayerViews) (dbu : option float)
    (layers : LayerStack) (unetched : list string) (p : string * LayerLevel)
  : list string :=
  match layer p.2 with
  | None => []
  | Some l =>
      if bool_decide (layer_type p.2 = etch)
      then map (slab_z_line layer_views layers p.1 p.2 l)
             (enumerate_from 0 (into_or_empty p.2))
      else if bool_decide (p.1 ∈ unetched)
      then [z_statement float_str layer_views p.1
              (rounded_bounds float_str py_round dbu p.2).1
              (rounded_bounds float_str py_round dbu p.2).2
              (z_label p.1 p.2 l) l]
      else []
  end.

(** The statement of an etched grown layer: its own [zmin] and
    [zmin + thickness]. *)
Definition unetched_z_line (layer_views : option LayerViews) (layers : LayerStack)
    (target_name : string) : string :=
  match dict_get target_name layers with
  | Some target =>
      match layer target with
      | Some l =>
          z_statement float_str layer_views ("unetched_" +:+ target_name)
            (zmin target) (PrimFloat.add (zmin target) (thickness target))
            (z_label ("unetched_" +:+ target_name) target l) l
      | None => ""
      end
  | None => ""
  end.

End ScriptSpec.

(** ** The etch resolution as one pass over the etch references *)

(** What one reference (target, etch layer) does to the state. *)
Definition reference_step (st : list string * list (string * list string))
    (r : string * string) : list string * list (string * list string) :=
  (filter (λ y, y ≠ r.1) st.1, dict_append r.1 r.2 st.2).

(** A dict entry extended by further values. *)
Definition extend_entry (o : option (list string)) (l : list string)
  : option (list string) :=
  match l with
  | [] => o
  | _ :: _ => Some (default [] o ++ l)
  end.

(** ** Example stacks *)

Definition level (l : option Layer) (t z : float) (m : string) (ty : LayerType)
    (i : option (list string)) (d : option (Z * Z)) : LayerLevel :=
  {| layer := l; thickness := t; zmin := z; material := Some m;
     sidewall_angle := 0%float; layer_type := ty; into := i; derived_layer := d |}.
Arguments level l t%_float z%_float m ty i d.

(** A core etched by a shallow etch, and a nitride layer above. *)
Definition core_level : LayerLevel :=
  level (Some (layer_tuple (1, 0)%Z)) 0.3 0 "si" grow None None.

Definition shallow_etch_level : LayerLevel :=
  level (Some (layer_tuple (2, 6)%Z)) 0.1 0 "si" etch (Some ["core"]) (Some (2, 0)%Z).

Definition nitride_level : LayerLevel :=
  level (Some (layer_tuple (34, 0)%Z)) 0.35 0.3205 "sin" grow None None.

Definition rib_stack : LayerStack :=
  [ ("core", core_level); ("shallow_etch", shallow_etch_level);
    ("nitride", nitride_level) ].

(** The core and its etch alone. *)
Definition etched_stack : LayerStack :=
  [ ("core", core_level); ("shallow_etch", shallow_etch_level) ].

(** The same with the etch pointing at a layer that is not in the stack. *)
Definition dangling_etch_level : LayerLevel :=
  level (Some (layer_tuple (2, 6)%Z)) 0.1 0 "si" etch (Some ["slab90"]) None.

Definition dangling_stack : LayerStack :=
  [ ("core", core_level); ("shallow_etch", dangling_etch_level) ].

(** A level without layer id and with a thickness. *)
Definition substrate_level : LayerLevel :=
  level None 10 (-10) "si" grow None None.


(** Members of a layer enumeration, numbered in the order of their
    declaration: the wafer comes first and has index 0. *)
Definition LAYER_WAFER : Layer := layer_enum 0 (99999, 0)%Z.
Definition LAYER_WG : Layer := layer_enum 1 (1, 0)%Z.
Definition LAYER_SHALLOW_ETCH : Layer := layer_enum 2 (2, 6)%Z.
Definition LAYER_WGN : Layer := layer_enum 3 (34, 0)%Z.

(** The stack of [rib_stack] on enumerated layers. *)
Definition pdk_core_level : LayerLevel :=
  level (Some LAYER_WG) 0.3 0 "si" grow None None.

Definition pdk_etch_level : LayerLevel :=
  level (Some LAYER_SHALLOW_ETCH) 0.1 0 "si" etch (Some ["core"]) (Some (2, 0)%Z).

Definition pdk_nitride_level : LayerLevel :=
  level (Some LAYER_WGN) 0.35 0.3205 "sin" grow None None.

Definition pdk_stack : LayerStack :=
  [ ("core", pdk_core_level); ("shallow_etch", pdk_etch_level);
    ("nitride", pdk_nitride_level) ].

(** Two grown layers and no etch, on enumerated layers. *)
Definition pdk_grow_stack : LayerStack :=
  [ ("core", pdk_core_level); ("nitride", pdk_nitride_level) ].

(** A wafer level on the enumerated layer of index 0, under a core. *)
Definition wafer_level : LayerLevel :=
  level (Some LAYER_WAFER) 500 (-500) "si" grow None None.

Definition wafer_stack : LayerStack :=
  [ ("wafer", wafer_level); ("core", pdk_core_level) ].

(** Snapshots over the cell kernel, keyed by layer index as the enumerated
    layers are. *)
Definition pdk_polygons : gmap (option LayerKey) (list Z) :=
  {[ Some (inr 1) := [1; 2; 3]; Some (inr 2) := [2]; Some (inr 3) := [5; 6] ]}%Z.

Definition etch_only_polygons : gmap (option LayerKey) (list Z) :=
  {[ Some (inr 2) := [2] ]}%Z.

Definition core_only_polygons : gmap (option LayerKey) (list Z) :=
  {[ Some (inr 1) := [1; 2; 3] ]}%Z.


Definition wafer_polygons : gmap (option LayerKey) (list Z) :=
  {[ Some (inr 0) := [9]; Some (inr 1) := [1; 2] ]}%Z.

(** The script of [rib_stack] for [dbu = 0.001], as CPython prints it. *)
Definition rib_script : string :=
"core = input(1, 0)
shallow_etch = input(2, 6)
nitride = input(34, 0)

unetched_core = core - shallow_etch

slab_core_shallow_etch_0 = core &amp; shallow_etch

z(slab_core_shallow_etch_0, zstart: 0.0, zstop: 0.19999999999999998, name: 'slab_core_shallow_etch_0: si 2/6')
z(nitride, zstart: 0.321, zstop: 0.67, name: 'nitride: sin 34/0')

z(unetched_core, zstart: 0.0, zstop: 0.3, name: 'unetched_core: si 1/0')
".

(** ** Further operations of [LayerStack] *)

(** [d[key] = v] on an insertion-ordered dict: a new key goes to the end,
    a known one keeps its place. *)
Fixpoint dict_set {V} (key : string) (v : V) (d : list (string * V))
  : list (string * V) :=
  match d with
  | [] => [(key, v)]
  | (k, w) :: d' =>
      if decide (k = key) then (k, v) :: d' else (k, w) :: dict_set key v d'
  end.

(** [filtered] (lines 355-359): the dict comprehension
    [{k: self.layers[k] for k in layers if k in self.layers}], handed to the
    constructor of the base class (which adds nothing: its only field is
    [layers]). *)
Definition filtered (self : LayerStack) (layers : list string) : LayerStack :=
  foldl (λ d k,
    match dict_get k self with
    | Some level => dict_set k level d
    | None => d
    end) [] layers.

(** [get_layer_to_layername] (lines 167-173): [d[level.layer].append(name)]
    on a [defaultdict(list)]. *)
Definition get_layer_to_layername (self : LayerStack)
  : gmap (option LayerKey) (list string) :=
  foldl (λ d (p : string * LayerLevel),
    <[py_key (layer p.2) := default [] (d !! py_key (layer p.2)) ++ [p.1]]> d) ∅ self.

(** ** The levels as objects: [z_offset] and [invert_zaxis] (lines 361-375)

    Both methods assign to the field [zmin] of the level objects and return
    [self].  A stack is here a dict from names to references, and the store
    holds the object behind each reference: two names, or two stacks, may hold
    the same object. *)

Definition with_zmin (z : float) (level : LayerLevel) : LayerLevel :=
  {| layer := layer level; thickness := thickness level; zmin := z;
     material := material level; sidewall_angle := sidewall_angle level;
     layer_type := layer_type level; into := into level;
     derived_layer := derived_layer level |}.

(** [self.layers or {}] on a dict of references. *)
Definition refs_or_empty (self : list (string * nat)) : list (string * nat) :=
  match self with
  | [] => []
  | _ :: _ => self
  end.

(** [for layer in layers.values(): layer.zmin += dz], then [return self] *)
Definition z_offset (store : gmap nat LayerLevel) (self : list (string * nat))
    (dz : float) : list (string * nat) * gmap nat LayerLevel :=
  (self,
   foldl (λ st ref,
            alter (λ layer_, with_zmin (zmin layer_ + dz)%float layer_) ref st)
     store (map snd (refs_or_empty self))).

(** [for layer in layers.values(): layer.zmin *= -1], then [return self] *)
Definition invert_zaxis (store : gmap nat LayerLevel) (self : list (string * nat))
  : list (string * nat) * gmap nat LayerLevel :=
  (self,
   foldl (λ st ref,
            alter (λ layer_, with_zmin (zmin layer_ * -1)%float layer_) ref st)
     store (map snd (refs_or_empty self))).

(** The stack as the read-only functions see it: each name with the level
    its reference holds. *)
Definition stack_of (store : gmap nat LayerLevel) (self : list (string * nat))
  : LayerStack :=
  omap (λ p : string * nat, pair p.1 <$> store !! p.2) self.

(** How often the values of a stack hold a reference. *)
Definition ref_count (self : list (string * nat)) (ref : nat) : nat :=
  length (filter (λ r, r = ref) (map snd self)).

(** The levels of a stack, each changed by [f], names and order kept. *)
Definition map_levels (f : LayerLevel → LayerLevel) (layers : LayerStack)
  : LayerStack :=
  map (λ p : string * LayerLevel, (p.1, f p.2)) layers.

(** A stack and a store with a level held under two names. *)
Definition shared_store : gmap nat LayerLevel :=
  {[ 0 := core_level; 1 := nitride_level ]}.

Definition shared_refs : list (string * nat) :=
  [ ("core", 0); ("core_copy", 0); ("nitride", 1) ].

Definition plain_refs : list (string * nat) :=
  [ ("core", 0); ("nitride", 1) ].

(** ** What the emitter and the builder read of a level *)


(** A level with the fields that [get_klayout_3d_script] reads kept and the
    other two reset. *)
Definition script_fields (level : LayerLevel) : LayerLevel :=
  {| layer := layer level; thickness := thickness level; zmin := zmin level;
     material := material level; sidewall_angle := 0;
     layer_type := layer_type level; into := into level;
     derived_layer := None |}.

(** The number of decimals [rnd_pl] the emitter rounds to, if it rounds:
    [if dbu: rnd_pl = len(str(dbu).split(".")[-1])]. *)
Definition rounding_places (float_str : float → string) (dbu : option float)
  : option nat :=
  match dbu with
  | Some d => if float_truthy d then Some (decimals_of (float_str d)) else None
  | None => None
  end.

(** An etch into a level that has no layer id. *)
Definition bare_target_stack : LayerStack :=
  [ ("substrate", substrate_level);
    ("trench", level (Some (layer_tuple (2, 6)%Z)) 0.1 0 "si" etch
                 (Some ["substrate"]) None) ].

(** The same etch on the enumerated layer of index 0: it fails the truth
    test and is not [None]. *)
Definition wafer_trench_stack : LayerStack :=
  [ ("substrate", substrate_level);
    ("trench", level (Some LAYER_WAFER) 0.1 0 "si" etch (Some ["substrate"]) None) ].

(** * Proofs *)

(** ** Dicts and lists *)

Lemma dict_get_elem_of {V} (key : string) (v : V) (d : list (string * V)) :
  NoDup (map fst d) → (key, v) ∈ d → dict_get key d = Some v.
Proof.
  induction d as [|[k w] d IH]; simpl; intros Hnd Hin.
  - by apply elem_of_nil in Hin.
  - apply NoDup_cons in Hnd as [Hk Hnd].
    apply elem_of_cons in Hin as [Heq|Hin].
    + injection Heq as -> ->. by rewrite decide_True.
    + rewrite decide_False; [by apply IH|].
      intros ->. apply Hk. apply list_elem_of_fmap. by exists (key, v).
Qed.

Lemma dict_get_Some_elem_of {V} (key : string) (v : V) (d : list (string * V)) :
  dict_get key d = Some v → (key, v) ∈ d.
Proof.
  induction d as [|[k w] d IH]; simpl; [done|].
  case_decide as Hk.
  - intros [= ->]. subst. apply elem_of_cons. by left.
  - intros H. apply elem_of_cons. right. by apply IH.
Qed.

Lemma dict_get_None_keys {V} (key : string) (d : list (string * V)) :
  dict_get key d = None ↔ key ∉ map fst d.
Proof.
  induction d as [|[k w] d IH]; simpl.
  - split; [intros _; apply not_elem_of_nil|done].
  - case_decide as Hk.
    + subst. split; [done|]. intros H. exfalso. apply H, elem_of_cons. by left.
    + rewrite IH, not_elem_of_cons.
      split; [intros; split; [congruence|done]|by intros [_ ?]].
Qed.

Lemma dict_get_is_Some_keys {V} (key : string) (d : list (string * V)) :
  key ∈ map fst d → is_Some (dict_get key d).
Proof.
  intros Hin. destruct (dict_get key d) eqn:E; [by eexists|].
  by apply dict_get_None_keys in E.
Qed.

Lemma dict_get_append key v d t :
  dict_get t (dict_append key v d) =
  if decide (key = t) then Some (default [] (dict_get t d) ++ [v])
  else dict_get t d.
Proof.
  induction d as [|[k vs] d IH]; simpl.
  - repeat case_decide; congruence.
  - destruct (decide (k = key)) as [->|Hk]; simpl;
      destruct (decide (key = t)) as [->|Ht]; simpl;
      repeat (case_decide; simplify_eq/=); done.
Qed.

Lemma filter_Forall_id {A} (P : A → Prop) `{!∀ x, Decision (P x)} (l : list A) :
  Forall P l → filter P l = l.
Proof.
  induction 1 as [|x l Hx _ IH]; [done|].
  by rewrite filter_cons_True, IH.
Qed.

Lemma list_remove_filter x l :
  NoDup l → list_remove x l = filter (λ y, y ≠ x) l.
Proof.
  induction l as [|y l IH]; simpl; [done|].
  intros [Hy Hnd]%NoDup_cons. rewrite filter_cons.
  destruct (decide (y = x)) as [->|Hyx].
  - rewrite decide_False by naive_solver.
    symmetry. apply filter_Forall_id, Forall_forall. by intros z Hz ->.
  - rewrite decide_True by done. by rewrite IH.
Qed.

Lemma NoDup_map_fst_filter {V} (P : string * V → Prop) `{!∀ x, Decision (P x)}
    (d : list (string * V)) :
  NoDup (map fst d) → NoDup (map fst (filter P d)).
Proof.
  intros Hnd. eapply sublist_NoDup; [exact Hnd|].
  apply (fmap_sublist fst), sublist_filter.
Qed.

(** ** The etch resolution as one pass over the etch references *)

Lemma reference_fold_fst refs : ∀ u d,
  (foldl reference_step (u, d) refs).1 = filter (λ y, y ∉ map fst refs) u.
Proof.
  induction refs as [|r refs IH]; intros u d; simpl.
  - symmetry. apply filter_Forall_id, Forall_forall. intros x _. apply not_elem_of_nil.
  - unfold reference_step at 2. simpl. rewrite IH, list_filter_filter.
    apply list_filter_iff. intros x. rewrite not_elem_of_cons. tauto.
Qed.

Lemma reference_fold_snd refs : ∀ u d t,
  dict_get t (foldl reference_step (u, d) refs).2 =
  extend_entry (dict_get t d)
    (map snd (filter (λ r : string * string, r.1 = t) refs)).
Proof.
  induction refs as [|[t' e] refs IH]; intros u d t; simpl; [done|].
  unfold reference_step at 2. simpl. rewrite IH, dict_get_append, filter_cons. simpl.
  destruct (decide (t' = t)) as [->|Hne]; simpl; [|done].
  destruct (map snd (filter (λ r : string * string, r.1 = t) refs)); simpl.
  - done.
  - by rewrite <- app_assoc.
Qed.

Lemma reference_fold_NoDup refs u d :
  NoDup u → NoDup (foldl reference_step (u, d) refs).1.
Proof. intros Hu. rewrite reference_fold_fst. by apply NoDup_filter. Qed.

Lemma dict_append_keys key v d :
  map fst (dict_append key v d) =
  if bool_decide (key ∈ map fst d) then map fst d else map fst d ++ [key].
Proof.
  induction d as [|[k vs] d IH]; simpl; [done|].
  destruct (decide (k = key)) as [->|Hk]; simpl.
  - rewrite bool_decide_true; [done|]. apply elem_of_cons. by left.
  - rewrite IH. case_bool_decide as Hin.
    + rewrite bool_decide_true; [done|]. apply elem_of_cons. by right.
    + rewrite bool_decide_false; [done|].
      intros [?|?]%elem_of_cons; [congruence|done].
Qed.

Lemma dict_append_NoDup key v d :
  NoDup (map fst d) → NoDup (map fst (dict_append key v d)).
Proof.
  intros Hnd. rewrite dict_append_keys. case_bool_decide as Hin; [done|].
  apply NoDup_app. split; [done|]. split.
  - intros x Hx ->%list_elem_of_singleton. done.
  - apply NoDup_singleton.
Qed.

Lemma reference_fold_keys_NoDup refs : ∀ u d,
  NoDup (map fst d) → NoDup (map fst (foldl reference_step (u, d) refs).2).
Proof.
  induction refs as [|r refs IH]; intros u d Hnd; simpl; [done|].
  apply IH. by apply dict_append_NoDup.
Qed.

Lemma into_loop_fold layer_name into : ∀ u d,
  NoDup u →
  into_loop layer_name into u d =
  foldl reference_step (u, d) (map (λ target, (target, layer_name)) into).
Proof.
  induction into as [|t into IH]; intros u d Hu; simpl; [done|].
  assert ((if bool_decide (t ∈ u) then list_remove t u else u)
          = filter (λ y, y ≠ t) u) as ->.
  { case_bool_decide as Hin.
    - by apply list_remove_filter.
    - symmetry. apply filter_Forall_id, Forall_forall. by intros x Hx ->. }
  rewrite IH by by apply NoDup_filter. done.
Qed.

Lemma etch_loop_fold (layers : LayerStack) (l : LayerStack) : ∀ u d,
  wf_stack layers → l ⊆ layers → NoDup u →
  etch_loop layers (map fst l) u d =
  Ok (foldl reference_step (u, d)
        (flat_map (λ p : string * LayerLevel,
           map (λ target, (target, p.1)) (into_or_empty p.2)) l)).
Proof.
  induction l as [|[n lv] l IH]; intros u d Hwf Hsub Hu; simpl; [done|].
  unfold layers_get. rewrite (dict_get_elem_of n lv layers Hwf).
  2:{ apply Hsub, elem_of_cons. by left. }
  simpl. rewrite into_loop_fold by done.
  destruct (foldl reference_step (u, d) _) as [u' d'] eqn:E.
  rewrite IH; try done.
  - by rewrite foldl_app, E.
  - intros x Hx. apply Hsub, elem_of_cons. by right.
  - change u' with (u', d').1. rewrite <- E. by apply reference_fold_NoDup.
Qed.

Lemma into_or_empty_default lv : into_or_empty lv = default [] (into lv).
Proof. unfold into_or_empty. by destruct (into lv) as [[|]|]. Qed.

(** What passes the truth test is not [None]; the converse fails at the
    enumerated layer of index 0. *)
Lemma layer_truthy_is_Some l : layer_truthy l → is_Some l.
Proof. destruct l; [by eexists|done]. Qed.

Lemma unetched_layers_grow layers : unetched_layers layers = grow_layers layers.
Proof.
  unfold unetched_layers, grow_layers. f_equal. apply list_filter_iff.
  intros [n lv]. simpl. by rewrite andb_True, bool_decide_spec.
Qed.

Lemma etch_layers_levels layers : etch_layers layers = map fst (etch_levels layers).
Proof.
  unfold etch_layers, etch_levels. f_equal. apply list_filter_iff.
  intros [n lv]. simpl. by rewrite andb_True, bool_decide_spec.
Qed.

Lemma derived_classification_fold layers :
  wf_stack layers →
  derived_classification layers =
  Ok (foldl reference_step (grow_layers layers, []) (etch_references layers)).
Proof.
  intros Hwf. unfold derived_classification.
  rewrite etch_layers_levels, unetched_layers_grow.
  rewrite etch_loop_fold; try done.
  - do 2 f_equal. unfold etch_references. apply flat_map_ext.
    intros [n lv]. simpl. by rewrite into_or_empty_default.
  - intros x [_ Hx]%list_elem_of_filter. done.
  - rewrite <- unetched_layers_grow. by apply NoDup_map_fst_filter.
Qed.

(** The classification itself never raises: it looks up names of the dict. *)
Lemma etch_loop_Ok layers names : ∀ u d,
  names ⊆ map fst layers →
  ∃ u' d', etch_loop layers names u d = Ok (u', d').
Proof.
  induction names as [|n names IH]; intros u d Hsub; simpl.
  - by exists u, d.
  - unfold layers_get.
    destruct (dict_get_is_Some_keys n layers) as [lv ->].
    { apply Hsub, elem_of_cons. by left. }
    simpl. destruct (into_loop _ _ _ _) as [u1 d1]. apply IH.
    intros x Hx. apply Hsub, elem_of_cons. by right.
Qed.

Lemma derived_classification_Ok layers :
  ∃ u d, derived_classification layers = Ok (u, d).
Proof.
  apply etch_loop_Ok. unfold etch_layers.
  intros x Hx. apply list_elem_of_fmap in Hx as [p [-> Hp]].
  apply list_elem_of_filter in Hp as [_ Hp].
  apply list_elem_of_fmap. by exists p.
Qed.

(** ** The two classification passes are the same computation *)

Lemma layers_or_empty_id self : layers_or_empty self = self.
Proof. by destruct self. Qed.

Lemma script_into_loop_eq layer_name into : ∀ u d,
  script_into_loop layer_name into u d = into_loop layer_name into u d.
Proof. induction into as [|t into IH]; intros u d; simpl; [done|]. apply IH. Qed.

Lemma script_etch_loop_eq layers names : ∀ u d,
  script_etch_loop layers names u d = etch_loop layers names u d.
Proof.
  induction names as [|n names IH]; intros u d; simpl; [done|].
  destruct (layers_get layers n) as [lv|e]; simpl; [|done].
  rewrite script_into_loop_eq. destruct (into_loop _ _ _ _) as [u' d']. apply IH.
Qed.

Lemma script_classification_eq self :
  script_classification self = derived_classification self.
Proof.
  unfold script_classification, derived_classification.
  rewrite layers_or_empty_id. apply script_etch_loop_eq.
Qed.




(** C4: the classification computed by the script emitter is the one
    computed by the builder, on every stack. *)
Theorem C4_classifications_agree (self : LayerStack) :
  script_classification self = derived_classification self.
Proof.
  unfold script_classification, derived_classification.
  rewrite layers_or_empty_id.
  assert (script_unetched_layers self = unetched_layers self) as -> by done.
  assert (script_etch_layers self = etch_layers self) as -> by done.
  apply script_etch_loop_eq.
Qed.

(** ** The accessors *)

(** [bounds] sorts the two ends: a negative thickness puts [zmin] last. *)
Example bounds_sorted :
  bounds (level None (-0.5) 1 "si" grow None None) = (0.5, 1)%float ∧
  bounds core_level = (0, 0.3)%float.
Proof. split; reflexivity. Qed.





(** ** Text *)

Lemma str_app_cons (x : ascii) (a b : string) :
  String x a +:+ b = String x (a +:+ b).
Proof. reflexivity. Qed.

Lemma str_app_assoc (a b c : string) : (a +:+ b) +:+ c = a +:+ (b +:+ c).
Proof. induction a as [|x a IH]; [done|]. by rewrite !str_app_cons, IH. Qed.

Lemma str_app_nil_r (a : string) : a +:+ "" = a.
Proof. induction a as [|x a IH]; [done|]. by rewrite str_app_cons, IH. Qed.

Lemma concat_str_app (l1 l2 : list string) :
  concat_str (l1 ++ l2) = concat_str l1 +:+ concat_str l2.
Proof.
  induction l1 as [|x l1 IH]; simpl; [done|].
  by rewrite IH, str_app_assoc.
Qed.

(** ** The loops of the script emitter write the lines of the specification *)

Lemma unetched_definitions_lines d : ∀ out,
  unetched_definitions d out = out +:+ concat_str (map unetched_definition_line d).
Proof.
  induction d as [|[t es] d IH]; intros out; simpl.
  - by rewrite str_app_nil_r.
  - rewrite IH. unfold unetched_definition_line. simpl.
    by rewrite !str_app_assoc.
Qed.

Lemma slab_definitions_into_lines layer_name into : ∀ i out,
  slab_definitions_into layer_name i into out =
  out +:+ concat_str (map (slab_definition_line layer_name) (enumerate_from i into)).
Proof.
  induction into as [|t into IH]; intros i out; simpl.
  - by rewrite str_app_nil_r.
  - rewrite IH. unfold slab_definition_line, slab_name. simpl.
    by rewrite !str_app_assoc.
Qed.

Lemma slab_definitions_lines layers : ∀ out,
  slab_definitions layers out = out +:+ concat_str (slab_definition_lines layers).
Proof.
  induction layers as [|[n lv] layers IH]; intros out; simpl.
  - by rewrite str_app_nil_r.
  - rewrite IH. unfold slab_definition_lines. simpl.
    fold (slab_definition_lines layers).
    case_bool_decide.
    + by rewrite slab_definitions_into_lines, concat_str_app, str_app_assoc.
    + done.
Qed.

Section ScriptProofs.

Variable float_str : float → string.
Variable py_round : float → nat → float.

Lemma z_slabs_lines layers lv n E l into : ∀ i out sl out' sl',
  z_slabs float_str layers lv n E l i into out sl = Ok (out', sl') →
  out' = out +:+ concat_str (map (slab_z_line float_str lv layers n E l)
                               (enumerate_from i into)) ∧
  Forall (λ t, is_Some (dict_get t layers)) into ∧
  (is_Some sl ∨ into ≠ [] → is_Some sl').
Proof.
  induction into as [|t into IH]; intros i out sl out' sl'; simpl.
  - intros [= <- <-]. rewrite str_app_nil_r. split; [done|]. split; [done|].
    by intros [H|H].
  - unfold layers_get. destruct (dict_get t layers) as [T|] eqn:Ht; simpl; [|done].
    intros H. apply IH in H as (-> & Hall & Hsl).
    split; [|split].
    + unfold slab_z_line at 2. simpl. rewrite Ht.
      unfold z_label, slab_name. by rewrite !str_app_assoc.
    + constructor; [by eexists|done].
    + intros _. apply Hsl. left. by eexists.
Qed.

Lemma z_slabs_raise layers lv n E l into : ∀ i out sl e,
  z_slabs float_str layers lv n E l i into out sl = Raise e →
  ∃ k, e = KeyError_name k ∧ k ∈ into ∧ dict_get k layers = None.
Proof.
  induction into as [|t into IH]; intros i out sl e; simpl; [done|].
  unfold layers_get. destruct (dict_get t layers) as [T|] eqn:Ht; simpl.
  - intros H. apply IH in H as (k & -> & Hin & Hk).
    exists k. split; [done|]. split; [|done]. apply elem_of_cons. by right.
  - intros [= <-]. exists t. split; [done|]. split; [|done].
    apply elem_of_cons. by left.
Qed.

Lemma z_levels_lines layers lv dbu u items : ∀ out sl out' sl',
  z_levels float_str py_round layers lv dbu u items out sl = Ok (out', sl') →
  out' = out +:+ concat_str (flat_map
           (level_z_lines float_str py_round lv dbu layers u) items) ∧
  (∀ e E t, (e, E) ∈ items → is_Some (layer E) → layer_type E = etch →
     t ∈ into_or_empty E → is_Some (dict_get t layers)) ∧
  (is_Some sl ∨
   (∃ e E, (e, E) ∈ items ∧ is_Some (layer E) ∧ layer_type E = etch ∧
      into_or_empty E ≠ []) → is_Some sl').
Proof.
  induction items as [|[n E] items IH]; intros out sl out' sl'; simpl.
  - intros [= <- <-]. rewrite str_app_nil_r. split; [done|]. split.
    + intros e E' t Hin. by apply elem_of_nil in Hin.
    + intros [H|(e & E' & Hin & _)]; [done|]. by apply elem_of_nil in Hin.
  - destruct (rounded_bounds float_str py_round dbu E) as [zmin_ zmax] eqn:Hb.
    unfold level_z_lines at 1. simpl. rewrite Hb. simpl.
    destruct (layer E) as [l|] eqn:Hl.
    + case_bool_decide as Hetch.
      * destruct (z_slabs _ _ _ _ _ _ _ _ _ _) as [[out1 sl1]|e] eqn:Hs; simpl; [|done].
        apply z_slabs_lines in Hs as (-> & Hall & Hsl1).
        intros H. apply IH in H as (-> & Hres & Hsl).
        split; [by rewrite concat_str_app, str_app_assoc|]. split.
        -- intros e E' t [[= -> ->]|Hin]%elem_of_cons HlE HtE Ht.
           ++ rewrite Forall_forall in Hall. by apply Hall.
           ++ by eapply Hres.
        -- intros [H|(e & E' & [[= -> ->]|Hin]%elem_of_cons & H1 & H2 & H3)].
           ++ apply Hsl. left. apply Hsl1. by left.
           ++ apply Hsl. left. apply Hsl1. by right.
           ++ apply Hsl. right. by exists e, E'.
      * assert (∀ out1,
          z_levels float_str py_round layers lv dbu u items out1 sl = Ok (out', sl') →
          out1 = out +:+ concat_str
            (if bool_decide (n ∈ u)
             then [z_statement float_str lv n zmin_ zmax (z_label n E l) l]
             else []) →
          out' = out +:+ concat_str
            ((if bool_decide (n ∈ u)
              then [z_statement float_str lv n zmin_ zmax (z_label n E l) l]
              else []) ++
             flat_map (level_z_lines float_str py_round lv dbu layers u) items) ∧
          (∀ e E0 t, (e, E0) ∈ (n, E) :: items → is_Some (layer E0) →
             layer_type E0 = etch → t ∈ into_or_empty E0 →
             is_Some (dict_get t layers)) ∧
          (is_Some sl ∨
           (∃ e E0, (e, E0) ∈ (n, E) :: items ∧ is_Some (layer E0) ∧
              layer_type E0 = etch ∧ into_or_empty E0 ≠ []) → is_Some sl')) as Hgen.
        { intros out1 H ->. apply IH in H as (-> & Hres & Hsl).
          split; [by rewrite concat_str_app, str_app_assoc|]. split.
          - intros e E' t [[= -> ->]|Hin]%elem_of_cons HlE HtE Ht; [done|].
            by eapply Hres.
          - intros [H|(e & E' & [[= -> ->]|Hin]%elem_of_cons & H1 & H2 & H3)];
              [by apply Hsl; left|done|].
            apply Hsl. right. by exists e, E'. }
        case_bool_decide as Hu; intros H; eapply Hgen; try exact H.
        -- simpl. unfold z_label. by rewrite str_app_nil_r.
        -- simpl. by rewrite str_app_nil_r.
    + intros H. apply IH in H as (-> & Hres & Hsl). split; [done|]. split.
      * intros e E' t [[= -> ->]|Hin]%elem_of_cons HlE HtE Ht.
        -- rewrite Hl in HlE. by destruct HlE.
        -- by eapply Hres.
      * intros [H|(e & E' & [[= -> ->]|Hin]%elem_of_cons & H1 & H2 & H3)].
        -- apply Hsl. by left.
        -- rewrite Hl in H1. by destruct H1.
        -- apply Hsl. right. by exists e, E'.
Qed.

Lemma z_levels_dangling layers lv dbu u items : ∀ out sl,
  (∃ e E t, (e, E) ∈ items ∧ is_Some (layer E) ∧ layer_type E = etch ∧
     t ∈ into_or_empty E ∧ dict_get t layers = None) →
  ∃ k, z_levels float_str py_round layers lv dbu u items out sl
         = Raise (KeyError_name k) ∧
       dict_get k layers = None.
Proof.
  induction items as [|[n E0] items IH]; intros out sl (e & E & t & Hin & Hl & Hty & Ht & Hnone).
  - by apply elem_of_nil in Hin.
  - simpl. destruct (rounded_bounds float_str py_round dbu E0) as [zmin_ zmax].
    assert ((e, E) ∈ items →
            ∀ out1 sl1, ∃ k,
              z_levels float_str py_round layers lv dbu u items out1 sl1
                = Raise (KeyError_name k) ∧ dict_get k layers = None) as Htail.
    { intros Hin' out1 sl1. apply IH. by exists e, E, t. }
    apply elem_of_cons in Hin as [[= -> ->]|Hin].
    + destruct Hl as [l Hl]. rewrite Hl, bool_decide_true by done.
      destruct (z_slabs _ _ _ _ _ _ _ _ _ _) as [[out1 sl1]|ex] eqn:Hs; simpl.
      * apply z_slabs_lines in Hs as (_ & Hall & _).
        rewrite Forall_forall in Hall. apply Hall in Ht.
        rewrite Hnone in Ht. by destruct Ht.
      * apply z_slabs_raise in Hs as (k & -> & _ & Hk). by exists k.
    + destruct (layer E0) as [l|]; [|by apply Htail].
      case_bool_decide.
      * destruct (z_slabs _ _ _ _ _ _ _ _ _ _) as [[out1 sl1]|ex] eqn:Hs; simpl.
        -- by apply Htail.
        -- apply z_slabs_raise in Hs as (k & -> & _ & Hk). by exists k.
      * case_bool_decide; by apply Htail.
Qed.

Lemma z_unetched_lines self lv d sl : ∀ out out',
  z_unetched float_str self lv d sl out = Ok out' →
  out' = out +:+ concat_str
           (map (λ entry : string * list string,
                   unetched_z_line float_str lv self entry.1) d) ∧
  Forall (λ entry : string * list string,
            ∃ T l, dict_get entry.1 self = Some T ∧ layer T = Some l) d.
Proof.
  induction d as [|[t es] d IH]; intros out out'; simpl.
  - intros [= <-]. by rewrite str_app_nil_r.
  - unfold layers_get. destruct (dict_get t self) as [T|] eqn:Ht; simpl; [|done].
    destruct sl as [s|]; [|done].
    destruct (layer T) as [l|] eqn:Hl; [|done].
    intros H. apply IH in H as (-> & Hall). split.
    + unfold unetched_z_line at 2. simpl. rewrite Ht, Hl.
      unfold z_label. by rewrite !str_app_assoc.
    + constructor; [|done]. by exists T, l.
Qed.

(** The whole script, when one is returned. *)
Lemma script_text self lv dbu out :
  get_klayout_3d_script float_str py_round self lv dbu = Ok out →
  ∃ unetched etched,
    script_classification self = Ok (unetched, etched) ∧
    out = String.concat nl (input_lines self) +:+ nl +:+ nl +:+
          concat_str (map unetched_definition_line etched) +:+ nl +:+
          concat_str (slab_definition_lines self) +:+ nl +:+
          concat_str (flat_map
            (level_z_lines float_str py_round lv dbu self unetched) self) +:+ nl +:+
          concat_str (map (λ entry : string * list string,
                             unetched_z_line float_str lv self entry.1) etched) ∧
    (∀ e E t, (e, E) ∈ self → is_Some (layer E) → layer_type E = etch →
       t ∈ into_or_empty E → is_Some (dict_get t self)) ∧
    Forall (λ entry : string * list string,
              ∃ T l, dict_get entry.1 self = Some T ∧ layer T = Some l) etched.
Proof.
  unfold get_klayout_3d_script. rewrite layers_or_empty_id.
  destruct (script_classification self) as [[u d]|e]; simpl; [|done].
  destruct (z_levels _ _ _ _ _ _ _ _ _) as [[out1 sl]|e] eqn:Hz; simpl; [|done].
  intros Hu. exists u, d. split; [done|].
  apply z_levels_lines in Hz as (-> & Hres & _).
  apply z_unetched_lines in Hu as (-> & Hall).
  split; [|done].
  rewrite unetched_definitions_lines, slab_definitions_lines.
  by rewrite !str_app_assoc.
Qed.

End ScriptProofs.

(** The variable [slab_layer_name] is bound whenever the closing loop reads
    it: an entry of [unetched_layers_dict] comes from an etch layer with a
    target, and the main loop has been through its slabs. *)
Lemma into_loop_nonempty layer_name into : ∀ u d u' d',
  into_loop layer_name into u d = (u', d') → d' ≠ [] → d ≠ [] ∨ into ≠ [].
Proof.
  destruct into as [|t into]; simpl; intros u d u' d'.
  - intros [= <- <-] H. by left.
  - intros _ _. by right.
Qed.

Lemma etch_loop_nonempty layers names : ∀ u d u' d',
  etch_loop layers names u d = Ok (u', d') → d' ≠ [] →
  d ≠ [] ∨ ∃ n lv, n ∈ names ∧ dict_get n layers = Some lv ∧ into_or_empty lv ≠ [].
Proof.
  induction names as [|n names IH]; simpl; intros u d u' d'.
  - intros [= <- <-] H. by left.
  - unfold layers_get. destruct (dict_get n layers) as [lv|] eqn:Hn; simpl; [|done].
    destruct (into_loop n (into_or_empty lv) u d) as [u1 d1] eqn:Hi.
    intros H Hd. destruct (IH _ _ _ _ H Hd) as [H1|(n' & lv' & Hin & Hg & Hne)].
    + destruct (into_loop_nonempty _ _ _ _ _ _ Hi H1) as [H2|H2]; [by left|].
      right. exists n, lv. split; [apply elem_of_cons; by left|done].
    + right. exists n', lv'. split; [apply elem_of_cons; by right|done].
Qed.

Lemma z_unetched_unbound float_str self lv d sl : ∀ out,
  z_unetched float_str self lv d sl out = Raise UnboundLocalError →
  sl = None ∧ d ≠ [].
Proof.
  induction d as [|[t es] d IH]; intros out; simpl; [done|].
  unfold layers_get. destruct (dict_get t self) as [T|]; simpl; [|done].
  destruct sl as [s|]; [|done].
  destruct (layer T) as [l|]; [|done].
  intros H. by apply IH in H as [? _].
Qed.

Lemma script_never_unbound float_str py_round self lv dbu :
  wf_stack self →
  get_klayout_3d_script float_str py_round self lv dbu ≠ Raise UnboundLocalError.
Proof.
  intros Hwf. unfold get_klayout_3d_script. rewrite layers_or_empty_id.
  rewrite script_classification_eq.
  destruct (derived_classification_Ok self) as (u & d & Hc). rewrite Hc. simpl.
  destruct (z_levels _ _ _ _ _ _ _ _ _) as [[out1 sl]|e] eqn:Hz; simpl.
  - intros [-> Hd]%z_unetched_unbound.
    destruct (etch_loop_nonempty _ _ _ _ _ _ Hc Hd)
      as [?|(n & E & Hin & Hg & Hne)]; [done|].
    apply z_levels_lines in Hz as (_ & _ & Hsl).
    destruct Hsl as [? ?]; [|done]. right.
    unfold etch_layers in Hin.
    apply list_elem_of_fmap in Hin as [[n' E'] [-> [Hp Hin]%list_elem_of_filter]].
    simpl in *. apply andb_True in Hp as [Hl%layer_truthy_is_Some Hty%bool_decide_spec].
    apply (dict_get_elem_of _ _ _ Hwf) in Hin. simplify_eq.
    eexists n', _. split; [apply dict_get_Some_elem_of; eassumption|done].
  - intros [= ->].
    assert (∀ items out sl, z_levels float_str py_round self lv dbu u items out sl
              ≠ Raise UnboundLocalError) as Hno; [|by apply Hno in Hz].
    clear. induction items as [|[n E] items IH]; intros out sl; simpl; [done|].
    destruct (rounded_bounds float_str py_round dbu E).
    destruct (layer E) as [l|]; [|apply IH].
    case_bool_decide; [|case_bool_decide; apply IH].
    destruct (z_slabs _ _ _ _ _ _ _ _ _ _) as [[o s]|e] eqn:Hs; simpl; [apply IH|].
    apply z_slabs_raise in Hs as (k & -> & _). done.
Qed.

(** The emitter returns a script as soon as every target of an etch layer
    is a level of the stack with a layer id. *)
Lemma z_slabs_Ok float_str layers lv n E l into : ∀ i out sl,
  Forall (λ t, is_Some (dict_get t layers)) into →
  ∃ out' sl', z_slabs float_str layers lv n E l i into out sl = Ok (out', sl').
Proof.
  induction into as [|t into IH]; intros i out sl Hall; simpl.
  - by exists out, sl.
  - apply Forall_cons in Hall as [[T HT] Hall].
    unfold layers_get. rewrite HT. simpl. by apply IH.
Qed.

Lemma z_levels_Ok float_str py_round layers lv dbu u items : ∀ out sl,
  (∀ e E t, (e, E) ∈ items → is_Some (layer E) → layer_type E = etch →
     t ∈ into_or_empty E → is_Some (dict_get t layers)) →
  ∃ out' sl',
    z_levels float_str py_round layers lv dbu u items out sl = Ok (out', sl').
Proof.
  induction items as [|[n E] items IH]; intros out sl Hres; simpl.
  - by exists out, sl.
  - assert (∀ out1 sl1, ∃ out' sl',
      z_levels float_str py_round layers lv dbu u items out1 sl1 = Ok (out', sl'))
      as Htail.
    { intros out1 sl1. apply IH. intros e E' t Hin.
      apply (Hres e E' t), elem_of_cons. by right. }
    destruct (rounded_bounds float_str py_round dbu E) as [zmin_ zmax].
    destruct (layer E) as [l|] eqn:Hl; [|apply Htail].
    case_bool_decide as Hty; [|case_bool_decide; apply Htail].
    destruct (z_slabs_Ok float_str layers lv n E l (into_or_empty E) 0 out sl)
      as (out1 & sl1 & ->).
    { apply Forall_forall. intros t Ht.
      apply (Hres n E t); [apply elem_of_cons; by left|by rewrite Hl|done|done]. }
    simpl. apply Htail.
Qed.

Lemma z_unetched_Ok float_str self lv d sl : ∀ out,
  is_Some sl ∨ d = [] →
  Forall (λ entry : string * list string,
            ∃ T l, dict_get entry.1 self = Some T ∧ layer T = Some l) d →
  ∃ out', z_unetched float_str self lv d sl out = Ok out'.
Proof.
  induction d as [|[t es] d IH]; intros out Hsl Hall; simpl.
  - by exists out.
  - apply Forall_cons in Hall as [(T & l & HT & Hl) Hall]. simpl in *.
    unfold layers_get. rewrite HT. simpl.
    destruct Hsl as [[s ->]|?]; [|done].
    rewrite Hl. apply IH; [left; by eexists|done].
Qed.

Lemma elem_of_etch_references (layers : LayerStack) (t e : string) :
  (t, e) ∈ etch_references layers ↔
  ∃ E, (e, E) ∈ layers ∧ layer_truthy (layer E) ∧ layer_type E = etch ∧
       t ∈ into_or_empty E.
Proof.
  unfold etch_references, etch_levels.
  rewrite list_elem_of_In, in_flat_map. split.
  - intros ([n E] & Hin & Hr). simpl in Hr.
    apply in_map_iff in Hr as (t' & [= -> ->] & Ht).
    apply list_elem_of_In, list_elem_of_filter in Hin as [[Hl Hty] Hin].
    exists E. rewrite into_or_empty_default. by rewrite list_elem_of_In.
  - intros (E & Hin & Hl & Hty & Ht). exists (e, E). split.
    + apply list_elem_of_In, list_elem_of_filter. by split.
    + simpl. apply in_map_iff. exists t. split; [done|].
      rewrite <- into_or_empty_default. by apply list_elem_of_In.
Qed.

Lemma classification_keys (layers : LayerStack) u d :
  wf_stack layers → derived_classification layers = Ok (u, d) →
  ∀ entry, entry ∈ d → ∃ e, (entry.1, e) ∈ etch_references layers.
Proof.
  intros Hwf Hc [t es] Hin. simpl.
  rewrite derived_classification_fold in Hc by done. injection Hc as Hc.
  assert (is_Some (dict_get t d)) as [l Hl].
  { apply dict_get_is_Some_keys, list_elem_of_fmap. by exists (t, es). }
  assert (d = (foldl reference_step (grow_layers layers, []) (etch_references layers)).2)
    as Hd by by rewrite Hc.
  rewrite Hd, reference_fold_snd in Hl. simpl in Hl.
  destruct (filter _ (etch_references layers)) as [|[t' e] rs] eqn:Hf; [done|].
  assert ((t', e) ∈ filter (λ r : string * string, r.1 = t) (etch_references layers))
    as [Ht Hr]%list_elem_of_filter.
  { rewrite Hf. apply elem_of_cons. by left. }
  simpl in Ht. subst t'. by exists e.
Qed.

Lemma classification_entries (layers : LayerStack) u d :
  wf_stack layers → derived_classification layers = Ok (u, d) →
  ∀ t es, (t, es) ∈ d → es = etched_by layers t.
Proof.
  intros Hwf Hc t es Hin.
  rewrite derived_classification_fold in Hc by done. injection Hc as Hc.
  assert (d = (foldl reference_step (grow_layers layers, []) (etch_references layers)).2)
    as Hd by by rewrite Hc.
  assert (NoDup (map fst d)) as Hnd.
  { rewrite Hd. apply reference_fold_keys_NoDup. constructor. }
  apply (dict_get_elem_of _ _ _ Hnd) in Hin.
  rewrite Hd, reference_fold_snd in Hin. simpl in Hin. unfold etched_by.
  destruct (map snd _); simpl in Hin; congruence.
Qed.

Lemma script_returns float_str py_round self lv dbu :
  wf_stack self →
  (∀ e E t, (e, E) ∈ self → is_Some (layer E) → layer_type E = etch →
     t ∈ into_or_empty E → is_Some (dict_get t self)) →
  (∀ e E t T, (e, E) ∈ self → layer_truthy (layer E) → layer_type E = etch →
     t ∈ into_or_empty E → dict_get t self = Some T → is_Some (layer T)) →
  ∃ out, get_klayout_3d_script float_str py_round self lv dbu = Ok out.
Proof.
  intros Hwf Hres Hlayer. unfold get_klayout_3d_script. rewrite layers_or_empty_id.
  rewrite script_classification_eq.
  destruct (derived_classification_Ok self) as (u & d & Hc). rewrite Hc. simpl.
  edestruct (z_levels_Ok float_str py_round self lv dbu u self)
    as (out1 & sl & Hz); [exact Hres|].
  rewrite Hz. simpl. apply z_unetched_Ok.
  - destruct d as [|entry d']; [by right|]. left.
    apply z_levels_lines in Hz as (_ & _ & Hsl). apply Hsl. right.
    destruct (classification_keys self u (entry :: d') Hwf Hc entry) as [e He].
    { apply elem_of_cons. by left. }
    apply elem_of_etch_references in He as (E & Hin & Hl & Hty & Ht).
    exists e, E. split; [done|]. split; [by apply layer_truthy_is_Some|].
    split; [done|]. intros Hnil. rewrite Hnil in Ht.
    by apply elem_of_nil in Ht.
  - apply Forall_forall. intros entry Hin.
    destruct (classification_keys self u d Hwf Hc entry Hin) as [e He].
    apply elem_of_etch_references in He as (E & HinE & Hl & Hty & Ht).
    destruct (Hres e E entry.1 HinE (layer_truthy_is_Some _ Hl) Hty Ht) as [T HT].
    destruct (Hlayer e E entry.1 T HinE Hl Hty Ht HT) as [l HlT].
    by exists T, l.
Qed.

(** ** Running the emitter *)

(** The rendering and the rounding on values that show their cases. *)
Example float_repr_examples :
  map PyFloat.float_repr
    [0.1; 0.1 + 0.2; 0.3 - 0.1; 1; 100; 0.001; 1e-5; 1.5e-7; 1e15; 1e16; -0.22]%float
  = ["0.1"; "0.30000000000000004"; "0.19999999999999998"; "1.0"; "100.0";
     "0.001"; "1e-05"; "1.5e-07"; "1000000000000000.0"; "1e+16"; "-0.22"].
Proof. vm_compute. reflexivity. Qed.

Example float_round_examples :
  map (λ x, PyFloat.float_repr (PyFloat.float_round x 3))
    [0.3 - 0.1; 0.3205; 0.12345; 2.0005; -0.0001; 1e300]%float
  = ["0.2"; "0.321"; "0.123"; "2.001"; "-0.0"; "1e+300"].
Proof. vm_compute. reflexivity. Qed.

(** [len(str(dbu).split(".")[-1])] on the default [dbu] and on one that CPython
    prints with an exponent. *)
Example decimals_of_examples :
  map (λ x, decimals_of (PyFloat.float_repr x)) [0.001; 0.0005; 1; 1e-6]%float
  = [3; 4; 1; 5].
Proof. vm_compute. reflexivity. Qed.

Lemma rib_script_eval :
  get_klayout_3d_script PyFloat.float_repr PyFloat.float_round
    rib_stack None (Some 0.001%float) = Ok rib_script.
Proof. vm_compute. reflexivity. Qed.

(** C6: in a script that is returned, the statements of the main loop and of
    the closing loop are those of [level_z_lines] and [unetched_z_line]: a
    slab runs from the target's [zmin] to the target's [zmin + thickness]
    minus the etch layer's thickness, and the statement [unetched_<name>] of
    an etched layer runs from that layer's own [zmin] to its own
    [zmin + thickness], whatever the etch layers are.  Every target is a
    level of the stack. *)
Theorem C6_z_extents (float_str : float → string) (py_round : float → nat → float)
    (self : LayerStack) (layer_views : option LayerViews) (dbu : option float)
    (out : string) :
  get_klayout_3d_script float_str py_round self layer_views dbu = Ok out →
  ∃ unetched etched head,
    script_classification self = Ok (unetched, etched) ∧
    out = head +:+
          concat_str (flat_map
            (level_z_lines float_str py_round layer_views dbu self unetched) self)
          +:+ nl +:+
          concat_str (map (λ entry : string * list string,
                             unetched_z_line float_str layer_views self entry.1) etched) ∧
    (∀ e E t, (e, E) ∈ self → is_Some (layer E) → layer_type E = etch →
       t ∈ into_or_empty E → is_Some (dict_get t self)) ∧
    Forall (λ entry : string * list string,
              ∃ T l, dict_get entry.1 self = Some T ∧ layer T = Some l) etched.
Proof.
  intros H. apply script_text in H as (u & d & Hc & -> & Hres & Hall).
  exists u, d.
  exists (String.concat nl (input_lines self) +:+ nl +:+ nl +:+
          concat_str (map unetched_definition_line d) +:+ nl +:+
          concat_str (slab_definition_lines self) +:+ nl).
  split; [done|]. split; [|done].
  by rewrite !str_app_assoc.
Qed.

Lemma C6_z_extents_witness :
  get_klayout_3d_script PyFloat.float_repr PyFloat.float_round
    rib_stack None (Some 0.001%float) = Ok rib_script ∧
  ∃ unetched etched head,
    script_classification rib_stack = Ok (unetched, etched) ∧
    rib_script = head +:+
          concat_str (flat_map
            (level_z_lines PyFloat.float_repr PyFloat.float_round None
               (Some 0.001%float) rib_stack unetched) rib_stack)
          +:+ nl +:+
          concat_str (map (λ entry : string * list string,
                             unetched_z_line PyFloat.float_repr None rib_stack entry.1)
                        etched) ∧
    (∀ e E t, (e, E) ∈ rib_stack → is_Some (layer E) → layer_type E = etch →
       t ∈ into_or_empty E → is_Some (dict_get t rib_stack)) ∧
    Forall (λ entry : string * list string,
              ∃ T l, dict_get entry.1 rib_stack = Some T ∧ layer T = Some l) etched.
Proof.
  split; [exact rib_script_eval|].
  exact (C6_z_extents PyFloat.float_repr PyFloat.float_round rib_stack None
           (Some 0.001%float) rib_script rib_script_eval).
Defined.

(** C8, as the code has it: in a script that is returned, the slab
    definitions follow the unetched definitions, one line
    [slab_<target>_<etch>_<i> = <target> &amp; <etch>] for each level of type
    etch in stack order and each target of its [into] with its index [i]: the
    intersection is spelled with the XML entity [&amp;].  The unetched
    definitions chain the etch layers with [" - "]. *)
Theorem C8_slab_definitions (float_str : float → string)
    (py_round : float → nat → float) (self : LayerStack)
    (layer_views : option LayerViews) (dbu : option float) (out : string) :
  get_klayout_3d_script float_str py_round self layer_views dbu = Ok out →
  ∃ unetched etched rest,
    script_classification self = Ok (unetched, etched) ∧
    out = String.concat nl (input_lines self) +:+ nl +:+ nl +:+
          concat_str (map unetched_definition_line etched) +:+ nl +:+
          concat_str (slab_definition_lines self) +:+ nl +:+ rest.
Proof.
  intros H. apply script_text in H as (u & d & Hc & -> & _).
  exists u, d. eexists. split; [done|]. reflexivity.
Qed.

Lemma C8_slab_definitions_witness :
  get_klayout_3d_script PyFloat.float_repr PyFloat.float_round
    rib_stack None (Some 0.001%float) = Ok rib_script ∧
  ∃ unetched etched rest,
    script_classification rib_stack = Ok (unetched, etched) ∧
    rib_script = String.concat nl (input_lines rib_stack) +:+ nl +:+ nl +:+
          concat_str (map unetched_definition_line etched) +:+ nl +:+
          concat_str (slab_definition_lines rib_stack) +:+ nl +:+ rest.
Proof.
  split; [exact rib_script_eval|].
  exact (C8_slab_definitions PyFloat.float_repr PyFloat.float_round rib_stack None
           (Some 0.001%float) rib_script rib_script_eval).
Defined.

(** C8 as stated fails: the script of [rib_stack] has the slab definition
    with [&amp;] and has no line with the one-character [&]. *)
Lemma C8_counterexample :
  get_klayout_3d_script PyFloat.float_repr PyFloat.float_round
    rib_stack None (Some 0.001%float) = Ok rib_script ∧
  slab_definition_line_ampersand "shallow_etch" (0, "core")
    = "slab_core_shallow_etch_0 = core & shallow_etch" +:+ nl ∧
  occurs_in (slab_definition_line_ampersand "shallow_etch" (0, "core")) rib_script
    = false ∧
  occurs_in ("slab_core_shallow_etch_0 = core &amp; shallow_etch" +:+ nl) rib_script
    = true.
Proof.
  split; [exact rib_script_eval|]. repeat split; vm_compute; reflexivity.
Qed.

(** C10: an etch-type level with a layer id whose [into] names a layer that
    is not in the stack makes the emitter raise the [KeyError] of the plain
    dict lookup, on a name of an [into] that is not in the stack; indexed
    access to that name raises the [ValueError] that lists the valid names
    instead. *)
Theorem C10_dangling_target (float_str : float → string)
    (py_round : float → nat → float) (self : LayerStack)
    (layer_views : option LayerViews) (dbu : option float)
    (e : string) (E : LayerLevel) (t : string) :
  (e, E) ∈ self → layer_type E = etch → is_Some (layer E) →
  t ∈ into_or_empty E → dict_get t self = None →
  ∃ k, get_klayout_3d_script float_str py_round self layer_views dbu
         = Raise (KeyError_name k) ∧
       dict_get k self = None ∧
       getitem self k = Raise (ValueError k (map fst self)).
Proof.
  intros Hin Hty Hl Ht Hnone.
  unfold get_klayout_3d_script. rewrite layers_or_empty_id.
  rewrite script_classification_eq.
  destruct (derived_classification_Ok self) as (u & d & ->). simpl.
  edestruct (z_levels_dangling float_str py_round self layer_views dbu u self)
    as (k & Hk & Hkn).
  { by exists e, E, t. }
  rewrite Hk. simpl. exists k. split; [done|]. split; [done|].
  unfold getitem. by rewrite Hkn.
Qed.

Lemma C10_dangling_target_witness :
  get_klayout_3d_script PyFloat.float_repr PyFloat.float_round
    dangling_stack None (Some 0.001%float) = Raise (KeyError_name "slab90") ∧
  ∃ k, get_klayout_3d_script PyFloat.float_repr PyFloat.float_round
         dangling_stack None (Some 0.001%float) = Raise (KeyError_name k) ∧
       dict_get k dangling_stack = None ∧
       getitem dangling_stack k = Raise (ValueError k (map fst dangling_stack)).
Proof.
  split; [vm_compute; reflexivity|].
  apply (C10_dangling_target PyFloat.float_repr PyFloat.float_round dangling_stack
           None (Some 0.001%float) "shallow_etch" dangling_etch_level "slab90").
  - apply elem_of_cons. right. apply elem_of_cons. by left.
  - reflexivity.
  - by eexists.
  - apply (bool_decide_unpack _). vm_compute. exact I.
  - reflexivity.
Defined.

(** ** The derived-geometry builder *)

(** With nothing etched, the layer ids handed to [extract] are those of
    all the grow layers that are keys of the snapshot. *)
Lemma grow_layer_ids_unetched {Polygon : Type}
    (polygons_per_layer : gmap (option LayerKey) (list Polygon))
    (layer_stack : LayerStack) :
  etch_references layer_stack = [] →
  map (λ p : string * LayerLevel, layer p.2)
    (filter (λ p : string * LayerLevel,
       is_Some (polygons_per_layer !! py_key (layer p.2)))
     (filter (λ p : string * LayerLevel,
        p.1 ∉ map fst (etch_references layer_stack))
      (filter (λ p : string * LayerLevel,
         layer_truthy (layer p.2) ∧ layer_type p.2 = grow) layer_stack))) =
  grow_layer_ids layer_stack polygons_per_layer.
Proof.
  intros Hrefs. rewrite Hrefs. revert layer_stack Hrefs.
  unfold grow_layer_ids, LayerStack. intros layer_stack _.
  rewrite !list_filter_filter. f_equal.
  apply list_filter_iff. intros [n lv]. simpl.
  assert (n ∉ @nil string) as Hn by apply not_elem_of_nil.
  tauto.
Qed.

Section BuilderProofs.

Variables Polygon Region Port : Type.
Variable region_new : Region.
Variable region_of : list Polygon → Region.
Variable region_or : Region → Region → Region.
Variable region_and : Region → Region → Region.
Variable region_sub : Region → Region → Region.
Variable get_layer : option Layer → option Layer.
Variable extract :
  gmap (option LayerKey) (list Polygon) → list (option Layer) →
  gmap (option LayerKey) (list (Shape Polygon Region)).

Local Abbreviation Shapes := (gmap (option LayerKey) (list (Shape Polygon Region))).
Local Abbreviation Snapshot := (gmap (option LayerKey) (list Polygon)).

(** The snapshot gives the empty list for a key it does not have, and
    raises nothing. *)
Lemma snapshot_get_absent (polygons_per_layer : Snapshot) (key : option Layer) :
  snapshot_has polygons_per_layer key = false →
  snapshot_get polygons_per_layer key =
    ([], <[py_key key := []]> polygons_per_layer).
Proof.
  unfold snapshot_has, snapshot_get. intros H.
  destruct (polygons_per_layer !! py_key key) eqn:E; [|done].
  rewrite bool_decide_true in H; [done|by eexists].
Qed.

(** The loop over the etch layers of a target raises nothing when they are
    names of the stack. *)
Lemma etching_loop_Ok (layer_stack : LayerStack) (polygons_per_layer : Snapshot)
    (polygons : list Polygon) (etching : list string) :
  ∀ (layer_index : option Layer) (r : Region) (c : Shapes),
    Forall (λ e, is_Some (dict_get e layer_stack)) etching →
    ∃ res, etching_loop region_of region_or region_and get_layer
             layer_stack polygons_per_layer polygons etching layer_index r c
           = Ok res.
Proof.
  induction etching as [|e etching IH]; intros li r c Hall; simpl.
  - by eexists.
  - apply Forall_cons in Hall as [[E HE] Hall].
    unfold layers_get. rewrite HE. simpl.
    destruct (snapshot_has polygons_per_layer (layer E)); [|by apply IH].
    destruct (derived_layer E); simpl; by apply IH.
Qed.

(** An etch layer whose layer id is not a key of the snapshot is passed
    over. *)
Lemma etching_loop_skip (layer_stack : LayerStack) (polygons_per_layer : Snapshot)
    (polygons : list Polygon) (e : string) (E : LayerLevel) (etching : list string)
    (layer_index : option Layer) (r : Region) (c : Shapes) :
  dict_get e layer_stack = Some E →
  snapshot_has polygons_per_layer (layer E) = false →
  etching_loop region_of region_or region_and get_layer
    layer_stack polygons_per_layer polygons (e :: etching) layer_index r c =
  etching_loop region_of region_or region_and get_layer
    layer_stack polygons_per_layer polygons etching layer_index r c.
Proof.
  intros HE Hhas. cbn [etching_loop]. unfold layers_get. rewrite HE.
  cbn [mbind result_bind]. by rewrite Hhas.
Qed.

(** The first etched layer ends the loop of lines 420-454: with the
    [KeyError] of its name when it is not a name of the stack, and with the
    [TypeError] of the difference otherwise. *)
Lemma derive_loop_raises (layer_stack : LayerStack) (t : string)
    (es : list string) (d : list (string * list string))
    (polygons_per_layer : Snapshot) (c : Shapes) :
  Forall (λ e, is_Some (dict_get e layer_stack)) es →
  derive_loop region_new region_of region_or region_and region_sub get_layer
    layer_stack ((t, es) :: d) polygons_per_layer c =
  match dict_get t layer_stack with
  | Some _ => Raise TypeError
  | None => Raise (KeyError_name t)
  end.
Proof.
  intros Hes. simpl. unfold layers_get.
  destruct (dict_get t layer_stack) as [T|]; simpl; [|done].
  destruct (snapshot_get polygons_per_layer (layer T)) as [polygons P1].
  destruct (etching_loop_Ok layer_stack P1 polygons es (layer T) region_new
              (insert_polygons (layer T) polygons c) Hes) as [[[li r] c2] ->].
  simpl. by destruct (snapshot_get P1 (layer T)).
Qed.

Lemma classification_etchers (layer_stack : LayerStack) u d :
  wf_stack layer_stack → derived_classification layer_stack = Ok (u, d) →
  Forall (λ entry : string * list string,
    Forall (λ e, is_Some (dict_get e layer_stack)) entry.2) d.
Proof.
  intros Hwf Hc. apply Forall_forall. intros [t es] Hin. simpl.
  pose proof (classification_entries layer_stack u d Hwf Hc t es Hin) as ->.
  apply Forall_forall. intros e He. unfold etched_by in He.
  apply list_elem_of_fmap in He as [[t' e'] [-> [Ht Hr]%list_elem_of_filter]].
  simpl in *. subst t'.
  apply elem_of_etch_references in Hr as (E & HinE & _).
  apply dict_get_is_Some_keys, list_elem_of_fmap. by exists (e', E).
Qed.

Lemma classification_covers (layers : LayerStack) u d (t e : string) :
  wf_stack layers → derived_classification layers = Ok (u, d) →
  (t, e) ∈ etch_references layers → ∃ es, (t, es) ∈ d.
Proof.
  intros Hwf Hc Hin.
  rewrite derived_classification_fold in Hc by done. injection Hc as Hc.
  assert (d = (foldl reference_step (grow_layers layers, []) (etch_references layers)).2)
    as Hd by by rewrite Hc.
  assert (is_Some (dict_get t d)) as [es Hes].
  { rewrite Hd, reference_fold_snd. simpl.
    destruct (filter _ (etch_references layers)) as [|r rs] eqn:Hf; [|by eexists].
    assert ((t, e) ∈ filter (λ r : string * string, r.1 = t) (etch_references layers))
      as Hin' by by apply list_elem_of_filter.
    rewrite Hf in Hin'. by apply elem_of_nil in Hin'. }
  exists es. by apply dict_get_Some_elem_of.
Qed.

Lemma classification_unetched (layer_stack : LayerStack) u d :
  wf_stack layer_stack → derived_classification layer_stack = Ok (u, d) →
  u = pure_grow_layers layer_stack.
Proof.
  intros Hwf Hc. rewrite derived_classification_fold in Hc by done.
  injection Hc as Hc.
  assert (u = (foldl reference_step (grow_layers layer_stack, [])
                 (etch_references layer_stack)).1) as -> by by rewrite Hc.
  apply reference_fold_fst.
Qed.

(** The layer ids handed to [extract]: those of the names of
    [unetched_layers] that are keys of the snapshot. *)
Lemma unetched_layer_numbers_levels (layer_stack : LayerStack)
    (polygons_per_layer : Snapshot) (l : LayerStack) :
  wf_stack layer_stack → l ⊆ layer_stack →
  unetched_layer_numbers layer_stack polygons_per_layer (map fst l) =
  Ok (map (λ p : string * LayerLevel, layer p.2)
        (filter (λ p : string * LayerLevel,
           is_Some (polygons_per_layer !! py_key (layer p.2))) l)).
Proof.
  intros Hwf. revert l. unfold LayerStack.
  induction l as [|[n lv] l IH]; intros Hsub; [done|].
  cbn [map fst unetched_layer_numbers]. unfold layers_get.
  rewrite (dict_get_elem_of n lv layer_stack Hwf)
    by (apply Hsub, elem_of_cons; by left).
  simpl. rewrite IH by (intros x Hx; apply Hsub, elem_of_cons; by right).
  simpl. rewrite filter_cons. unfold snapshot_has. simpl.
  case_bool_decide; by case_decide.
Qed.

Lemma filter_map_fst {A} (Q : string → Prop) `{!∀ x, Decision (Q x)}
    (l : list (string * A)) :
  filter Q (map fst l) = map fst (filter (λ p : string * A, Q p.1) l).
Proof.
  induction l as [|p l IH]; [done|].
  cbn [map]. rewrite !filter_cons. simpl. case_decide; cbn [map]; by rewrite IH.
Qed.

Lemma pure_grow_layers_levels (layer_stack : LayerStack) :
  pure_grow_layers layer_stack =
  map fst (filter (λ p : string * LayerLevel,
             p.1 ∉ map fst (etch_references layer_stack))
           (filter (λ p : string * LayerLevel,
              layer_truthy (layer p.2) ∧ layer_type p.2 = grow) layer_stack)).
Proof.
  unfold pure_grow_layers, grow_layers.
  by rewrite (filter_map_fst (λ name, name ∉ map fst (etch_references layer_stack))).
Qed.

(** What the builder returns when it returns: the classification has no
    etched layer, and the component is the one [extract] gives for the layer
    ids of the unetched grow layers that are keys of the snapshot, with the
    ports of the input. *)
Lemma builder_outcome (polygons_per_layer : Snapshot)
    (component_ports : list Port) (layer_stack : LayerStack) u d :
  wf_stack layer_stack → derived_classification layer_stack = Ok (u, d) →
  get_component_with_derived_layers region_new region_of region_or region_and
    region_sub get_layer extract polygons_per_layer component_ports layer_stack =
  match d with
  | [] =>
      Ok {| shapes := extract polygons_per_layer
              (map (λ p : string * LayerLevel, layer p.2)
                 (filter (λ p : string * LayerLevel,
                    is_Some (polygons_per_layer !! py_key (layer p.2)))
                  (filter (λ p : string * LayerLevel,
                     p.1 ∉ map fst (etch_references layer_stack))
                   (filter (λ p : string * LayerLevel,
                      layer_truthy (layer p.2) ∧ layer_type p.2 = grow)
                    layer_stack))));
            ports := component_ports |}
  | (t, _) :: _ =>
      match dict_get t layer_stack with
      | Some _ => Raise TypeError
      | None => Raise (KeyError_name t)
      end
  end.
Proof.
  intros Hwf Hc. unfold get_component_with_derived_layers. rewrite Hc. simpl.
  rewrite (classification_unetched layer_stack u d Hwf Hc), pure_grow_layers_levels.
  rewrite unetched_layer_numbers_levels; [|done|].
  2:{ intros p [_ [_ Hp]%list_elem_of_filter]%list_elem_of_filter. done. }
  simpl. destruct d as [|[t es] d]; [done|].
  rewrite derive_loop_raises; [by destruct (dict_get t layer_stack)|].
  pose proof (classification_etchers layer_stack u _ Hwf Hc) as Hall.
  by apply Forall_cons in Hall as [Hes _].
Qed.

(** C1: the residual of an etched layer is never computed.  As soon as an
    etch layer (an etch-type level whose layer id passes the truth test)
    names a layer in its [into], the classification has a first etched layer,
    and the builder ends there: with the [KeyError] of that name when it is
    not a name of the stack, and otherwise with the [TypeError] of line 453,
    which hands the list of polygons itself to the boolean difference. *)
Theorem C1_etched_layer_raises (polygons_per_layer : Snapshot)
    (component_ports : list Port) (layer_stack : LayerStack)
    (e t : string) (E : LayerLevel) :
  wf_stack layer_stack →
  (e, E) ∈ layer_stack → layer_truthy (layer E) → layer_type E = etch →
  t ∈ into_or_empty E →
  ∃ unetched first etchers etched,
    derived_classification layer_stack =
      Ok (unetched, (first, etchers) :: etched) ∧
    get_component_with_derived_layers region_new region_of region_or region_and
      region_sub get_layer extract polygons_per_layer component_ports layer_stack =
    match dict_get first layer_stack with
    | Some _ => Raise TypeError
    | None => Raise (KeyError_name first)
    end.
Proof.
  intros Hwf Hin Hl Hty Ht.
  destruct (derived_classification_Ok layer_stack) as (u & d & Hc).
  destruct (classification_covers layer_stack u d t e Hwf Hc) as [es Hes].
  { apply elem_of_etch_references. by exists E. }
  destruct d as [|[t0 es0] d]; [by apply elem_of_nil in Hes|].
  exists u, t0, es0, d. split; [done|].
  by rewrite (builder_outcome _ _ _ u _ Hwf Hc).
Qed.

(** C2: geometry that the snapshot lacks is read as empty and raises
    nothing, as the claim has it: the lookup of an etched layer that is not a
    key of the snapshot gives the empty list, and an etch layer that is not a
    key is passed over.  The builder raises all the same: when every etched
    name is a name of the stack, it ends with the [TypeError] of line 453,
    whatever the snapshot holds. *)
Theorem C2_missing_geometry_raises (polygons_per_layer : Snapshot)
    (component_ports : list Port) (layer_stack : LayerStack)
    (e t : string) (E T : LayerLevel) :
  wf_stack layer_stack →
  (e, E) ∈ layer_stack → layer_truthy (layer E) → layer_type E = etch →
  t ∈ into_or_empty E → (t, T) ∈ layer_stack →
  (∀ e' E' t', (e', E') ∈ layer_stack → layer_truthy (layer E') →
     layer_type E' = etch → t' ∈ into_or_empty E' →
     is_Some (dict_get t' layer_stack)) →
  (snapshot_has polygons_per_layer (layer T) = false →
   (snapshot_get polygons_per_layer (layer T)).1 = []) ∧
  (snapshot_has polygons_per_layer (layer E) = false →
   ∀ polygons etching (layer_index : option Layer) (r : Region) (c : Shapes),
     etching_loop region_of region_or region_and get_layer
       layer_stack polygons_per_layer polygons (e :: etching) layer_index r c =
     etching_loop region_of region_or region_and get_layer
       layer_stack polygons_per_layer polygons etching layer_index r c) ∧
  get_component_with_derived_layers region_new region_of region_or region_and
    region_sub get_layer extract polygons_per_layer component_ports layer_stack =
  Raise TypeError.
Proof.
  intros Hwf Hin Hl Hty Ht HinT Hres. split; [|split].
  - intros Hhas. by rewrite snapshot_get_absent.
  - intros Hhas polygons etching li r c.
    apply (etching_loop_skip _ _ _ e E); [by apply dict_get_elem_of|done].
  - destruct (derived_classification_Ok layer_stack) as (u & d & Hc).
    destruct (classification_covers layer_stack u d t e Hwf Hc) as [es Hes].
    { apply elem_of_etch_references. by exists E. }
    rewrite (builder_outcome _ _ _ u d Hwf Hc).
    destruct d as [|[t0 es0] d]; [by apply elem_of_nil in Hes|].
    destruct (classification_keys layer_stack u _ Hwf Hc (t0, es0)) as [e0 He0].
    { apply elem_of_cons. by left. }
    apply elem_of_etch_references in He0 as (E0 & Hin0 & Hl0 & Hty0 & Ht0).
    by destruct (Hres e0 E0 t0 Hin0 Hl0 Hty0 Ht0) as [T0 ->].
Qed.




End BuilderProofs.

(** C1 on [pdk_stack], whose core is etched by the shallow etch, with
    polygons on all three layers: the builder raises the [TypeError]. *)
Lemma C1_etched_layer_raises_witness :
  Cells.derive pdk_polygons ["o1"] pdk_stack = Raise TypeError ∧
  ∃ unetched first etchers etched,
    derived_classification pdk_stack =
      Ok (unetched, (first, etchers) :: etched) ∧
    Cells.derive pdk_polygons ["o1"] pdk_stack =
    match dict_get first pdk_stack with
    | Some _ => Raise TypeError
    | None => Raise (KeyError_name first)
    end.
Proof.
  split; [reflexivity|].
  apply (C1_etched_layer_raises Cells.Polygon Cells.Region Cells.Port
           Cells.region_new Cells.region_of Cells.region_or Cells.region_and
           Cells.region_sub Cells.get_layer Cells.extract pdk_polygons ["o1"]
           pdk_stack "shallow_etch" "core" pdk_etch_level).
  - apply (bool_decide_unpack _). vm_compute. exact I.
  - apply elem_of_cons. right. apply elem_of_cons. by left.
  - exact I.
  - reflexivity.
  - apply elem_of_cons. by left.
Defined.

(** C2 on [pdk_stack] with a snapshot that has the etch layer only: the
    polygons of the core read as the empty list, and the builder raises the
    [TypeError].  So it does with a snapshot that has the core only, where the
    etch layer is passed over. *)
Lemma C2_missing_geometry_raises_witness :
  snapshot_has etch_only_polygons (layer pdk_core_level) = false ∧
  (snapshot_get etch_only_polygons (layer pdk_core_level)).1 = [] ∧
  Cells.derive etch_only_polygons ["o1"] pdk_stack = Raise TypeError ∧
  snapshot_has core_only_polygons (layer pdk_etch_level) = false ∧
  Cells.derive core_only_polygons ["o1"] pdk_stack = Raise TypeError.
Proof.
  split; [reflexivity|].
  assert (∀ e' E' t', (e', E') ∈ pdk_stack → layer_truthy (layer E') →
            layer_type E' = etch → t' ∈ into_or_empty E' →
            is_Some (dict_get t' pdk_stack)) as Hres.
  { intros e' E' t' Hin Hl Hty Ht.
    apply elem_of_cons in Hin as [[= -> ->]|Hin]; [discriminate Hty|].
    apply elem_of_cons in Hin as [[= -> ->]|Hin].
    { apply list_elem_of_singleton in Ht as ->. by eexists. }
    apply elem_of_cons in Hin as [[= -> ->]|Hin]; [discriminate Hty|].
    by apply elem_of_nil in Hin. }
  assert (wf_stack pdk_stack) as Hwf
    by (apply (bool_decide_unpack _); vm_compute; exact I).
  assert (("shallow_etch", pdk_etch_level) ∈ pdk_stack) as HinE
    by (apply elem_of_cons; right; apply elem_of_cons; by left).
  assert (("core", pdk_core_level) ∈ pdk_stack) as HinT
    by (apply elem_of_cons; by left).
  assert ("core" ∈ into_or_empty pdk_etch_level) as Ht
    by (apply elem_of_cons; by left).
  destruct (C2_missing_geometry_raises Cells.Polygon Cells.Region Cells.Port
           Cells.region_new Cells.region_of Cells.region_or Cells.region_and
           Cells.region_sub Cells.get_layer Cells.extract etch_only_polygons ["o1"]
           pdk_stack "shallow_etch" "core" pdk_etch_level pdk_core_level
           Hwf HinE I eq_refl Ht HinT Hres)
    as (Hget & _ & Hraise).
  destruct (C2_missing_geometry_raises Cells.Polygon Cells.Region Cells.Port
           Cells.region_new Cells.region_of Cells.region_or Cells.region_and
           Cells.region_sub Cells.get_layer Cells.extract core_only_polygons ["o1"]
           pdk_stack "shallow_etch" "core" pdk_etch_level pdk_core_level
           Hwf HinE I eq_refl Ht HinT Hres)
    as (_ & _ & Hraise').
  split; [by apply Hget|]. split; [exact Hraise|]. split; [reflexivity|exact Hraise'].
Defined.



(** C5 fails on [rib_stack] with [dbu = 0.001], that is three decimals: the
    statement of the pure-grow nitride is rounded (0.3205 and 0.6705 give
    0.321 and 0.67), the slab statement carries 0.3 - 0.1 unrounded, where
    three decimals give 0.2.  On [etched_stack], where every statement is a
    slab or an unetched one, [dbu] changes nothing, whatever [round] and [str]
    are. *)
Theorem C5_only_pure_grow_is_rounded (float_str : float → string)
    (py_round : float → nat → float) (layer_views : option LayerViews)
    (dbu : float) :
  get_klayout_3d_script float_str py_round etched_stack layer_views (Some dbu)
    = get_klayout_3d_script float_str py_round etched_stack layer_views None ∧
  get_klayout_3d_script PyFloat.float_repr PyFloat.float_round
    rib_stack None (Some 0.001%float) = Ok rib_script ∧
  decimals_of (PyFloat.float_repr 0.001) = 3 ∧
  PyFloat.float_repr (0.3 - 0.1) = "0.19999999999999998" ∧
  PyFloat.float_repr (PyFloat.float_round (0.3 - 0.1) 3) = "0.2" ∧
  occurs_in "zstop: 0.19999999999999998" rib_script = true.
Proof.
  split; [|split; [exact rib_script_eval|repeat split; vm_compute; reflexivity]].
  unfold get_klayout_3d_script. simpl.
  unfold rounded_bounds. by destruct (float_truthy dbu).
Qed.

(** * Further properties *)

(** ** Floats *)

Lemma digits2_pos_shift52 (m : positive) :
  Z.pos (digits2_pos (4503599627370496 * m)) = (Z.pos (digits2_pos m) + 52)%Z.
Proof.
  simpl. rewrite Pos.mul_1_l, !Pos2Z.inj_succ. lia.
Qed.

Lemma shr_52 (m : positive) :
  SpecFloat.iter_pos shr_1 52
    {| shr_m := Z.pos (4503599627370496 * m); shr_r := false; shr_s := false |}
  = {| shr_m := Z.pos m; shr_r := false; shr_s := false |}.
Proof. reflexivity. Qed.

Lemma SF64mul_minus_one (x : spec_float) :
  valid_binary x = true →
  SF64mul x (S754_finite true 4503599627370496 (-52)) = SFopp x.
Proof.
  destruct x as [s|s| |s m e]; intros Hv;
    [by destruct s|by destruct s|done|].
  simpl in Hv. unfold SF64mul, SFmul, binary_round_aux.
  apply andb_prop in Hv as [Hc Hb]. unfold canonical_mantissa in Hc.
  apply Z.eqb_eq in Hc.
  rewrite Pos.mul_comm.
  unfold shr_fexp at 1. unfold Zdigits2. rewrite digits2_pos_shift52.
  replace (Z.pos (digits2_pos m) + 52 + (e + -52))%Z
    with (Z.pos (digits2_pos m) + e)%Z by lia.
  rewrite Hc. replace (e - (e + -52))%Z with 52%Z by lia.
  cbn [shr shr_record_of_loc]. rewrite shr_52.
  replace (e + -52 + 52)%Z with e by lia.
  unfold shr_fexp, loc_of_shr_record, round_nearest_even, shr_m, Zdigits2.
  rewrite Hc, Z.sub_diag. unfold shr, shr_record_of_loc. rewrite Hb.
  by destruct s.
Qed.

Lemma float_mul_minus_one (x : float) : (x * -1)%float = (- x)%float.
Proof.
  apply Prim2SF_inj. rewrite mul_spec, opp_spec.
  change (Prim2SF (-1)%float) with (S754_finite true 4503599627370496 (-52)).
  apply SF64mul_minus_one, Prim2SF_valid.
Qed.

Lemma float_opp_involutive (x : float) : (- - x)%float = x.
Proof.
  apply Prim2SF_inj. rewrite !opp_spec.
  destruct (Prim2SF x) as [s|s| |s m e]; simpl; by rewrite ?negb_involutive.
Qed.




Lemma float_mul_minus_one_twice (x : float) : (x * -1 * -1)%float = x.
Proof. by rewrite !float_mul_minus_one, float_opp_involutive. Qed.

(** ** [z_offset] and [invert_zaxis] on the store *)

Lemma with_zmin_zmin (level : LayerLevel) : with_zmin (zmin level) level = level.
Proof. by destruct level. Qed.

Lemma alter_fold_lookup (f : LayerLevel → LayerLevel) (refs : list nat) :
  ∀ (store : gmap nat LayerLevel) (ref : nat),
    foldl (λ st r, alter f r st) store refs !! ref =
    Nat.iter (length (filter (λ r, r = ref) refs)) f <$> store !! ref.
Proof.
  induction refs as [|r refs IH]; intros store ref; simpl.
  - by destruct (store !! ref).
  - rewrite IH, filter_cons. destruct (decide (r = ref)) as [->|Hne].
    + rewrite lookup_alter_eq. destruct (store !! ref); simpl; [|done].
      by rewrite Nat.iter_swap.
    + by rewrite lookup_alter_ne.
Qed.

Lemma refs_or_empty_id (self : list (string * nat)) : refs_or_empty self = self.
Proof. by destruct self. Qed.

Lemma filter_eq_not_elem_of (refs : list nat) (ref : nat) :
  ref ∉ refs → filter (λ r, r = ref) refs = [].
Proof.
  induction refs as [|r refs IH]; [done|].
  intros [Hne Hn]%not_elem_of_cons.
  rewrite filter_cons_False by congruence. by apply IH.
Qed.

Lemma ref_count_NoDup (self : list (string * nat)) (p : string * nat) :
  NoDup (map snd self) → p ∈ self → ref_count self p.2 = 1.
Proof.
  unfold ref_count. induction self as [|q self IH]; simpl; intros Hnd Hin.
  - by apply elem_of_nil in Hin.
  - apply NoDup_cons in Hnd as [Hq Hnd]. rewrite filter_cons.
    apply elem_of_cons in Hin as [->|Hin].
    + rewrite decide_True by done. simpl. by rewrite filter_eq_not_elem_of.
    + rewrite decide_False; [by apply IH|].
      intros Heq. apply Hq. rewrite Heq. apply list_elem_of_fmap. by exists p.
Qed.

Lemma stack_of_cons (store : gmap nat LayerLevel) (p : string * nat)
    (self : list (string * nat)) :
  stack_of store (p :: self) =
  match store !! p.2 with
  | Some level => (p.1, level) :: stack_of store self
  | None => stack_of store self
  end.
Proof. unfold stack_of. cbn. by destruct (store !! p.2). Qed.

Lemma stack_of_ext (store1 store2 : gmap nat LayerLevel) (f : LayerLevel → LayerLevel)
    (self : list (string * nat)) :
  (∀ p, p ∈ self → store2 !! p.2 = f <$> store1 !! p.2) →
  stack_of store2 self = map_levels f (stack_of store1 self).
Proof.
  induction self as [|p self IH]; intros H; [done|].
  rewrite !stack_of_cons, (H p) by (apply elem_of_cons; by left).
  rewrite IH by (intros q Hq; apply H, elem_of_cons; by right).
  by destruct (store1 !! p.2).
Qed.

(** X1: [z_offset] returns [self], and in the store an object has its [zmin]
    shifted by [dz] once for every name of the stack that holds it: an object
    the stack does not hold is untouched, an object held under two names is
    shifted twice. *)
Theorem X1_z_offset_store (store : gmap nat LayerLevel)
    (self : list (string * nat)) (dz : float) (ref : nat) :
  (z_offset store self dz).1 = self ∧
  (z_offset store self dz).2 !! ref =
    Nat.iter (ref_count self ref)
      (λ level, with_zmin (zmin level + dz)%float level) <$> store !! ref.
Proof.
  split; [done|]. unfold z_offset, ref_count. simpl.
  rewrite refs_or_empty_id. apply alter_fold_lookup.
Qed.

(** X2: when no level object is held under two names, the stack read after
    [z_offset] is the stack read before with every [zmin] replaced by
    [zmin + dz]: names, order and every other field are kept. *)
Theorem X2_z_offset_levels (store : gmap nat LayerLevel)
    (self : list (string * nat)) (dz : float) :
  NoDup (map snd self) →
  stack_of (z_offset store self dz).2 self =
  map_levels (λ level, with_zmin (zmin level + dz)%float level) (stack_of store self).
Proof.
  intros Hnd. apply stack_of_ext. intros p Hp.
  unfold z_offset. simpl. rewrite refs_or_empty_id, alter_fold_lookup.
  fold (ref_count self p.2). by rewrite (ref_count_NoDup self p Hnd Hp).
Qed.

Lemma X2_z_offset_levels_witness :
  get_layer_to_zmin (stack_of (z_offset shared_store plain_refs 0.5).2 plain_refs)
    !! Some (inl (34, 0)%Z) = Some 0.8205%float ∧
  stack_of (z_offset shared_store plain_refs 0.5).2 plain_refs =
  map_levels (λ level, with_zmin (zmin level + 0.5)%float level)
    (stack_of shared_store plain_refs).
Proof.
  split; [vm_compute; reflexivity|].
  apply (X2_z_offset_levels shared_store plain_refs 0.5).
  apply (bool_decide_unpack _). vm_compute. exact I.
Defined.

(** ** A change of [zmin] alone, seen by the read-only functions *)

Lemma map_levels_keys f (layers : LayerStack) :
  map fst (map_levels f layers) = map fst layers.
Proof.
  unfold map_levels. induction layers as [|p l IH]; simpl; [done|]. by rewrite IH.
Qed.

Lemma dict_get_map_levels f (layers : LayerStack) (key : string) :
  dict_get key (map_levels f layers) = f <$> dict_get key layers.
Proof.
  unfold map_levels. induction layers as [|[k lv] l IH]; simpl; [done|].
  by case_decide.
Qed.

Lemma filter_map_levels (P Q : string * LayerLevel → Prop)
    `{!∀ x, Decision (P x), !∀ x, Decision (Q x)} f (layers : LayerStack) :
  (∀ p, P (p.1, f p.2) ↔ Q p) →
  filter P (map_levels f layers) = map_levels f (filter Q layers).
Proof.
  intros HPQ. unfold map_levels, LayerStack in *.
  induction layers as [|p l IH]; [done|].
  cbn [map]. rewrite !filter_cons. destruct (decide (Q p)) as [Hq|Hq].
  - rewrite decide_True by by apply HPQ. cbn [map]. by rewrite IH.
  - rewrite decide_False by by rewrite HPQ. done.
Qed.

(** What the etch classification reads of a level: [layer], [layer_type]
    and [into]. *)
Section Relevel.

Variable f : LayerLevel → LayerLevel.
Hypothesis f_layer : ∀ level, layer (f level) = layer level.
Hypothesis f_layer_type : ∀ level, layer_type (f level) = layer_type level.
Hypothesis f_into : ∀ level, into (f level) = into level.

Lemma relevel_unetched_layers (layers : LayerStack) :
  unetched_layers (map_levels f layers) = unetched_layers layers.
Proof.
  unfold unetched_layers.
  rewrite (filter_map_levels _ (λ p : string * LayerLevel,
    layer_truthy (layer p.2) && bool_decide (layer_type p.2 = grow))).
  - apply map_levels_keys.
  - intros p. simpl. by rewrite f_layer, f_layer_type.
Qed.

Lemma relevel_etch_layers (layers : LayerStack) :
  etch_layers (map_levels f layers) = etch_layers layers.
Proof.
  unfold etch_layers.
  rewrite (filter_map_levels _ (λ p : string * LayerLevel,
    layer_truthy (layer p.2) && bool_decide (layer_type p.2 = etch))).
  - apply map_levels_keys.
  - intros p. simpl. by rewrite f_layer, f_layer_type.
Qed.

Lemma relevel_into_or_empty (level : LayerLevel) :
  into_or_empty (f level) = into_or_empty level.
Proof. unfold into_or_empty. by rewrite f_into. Qed.

Lemma relevel_layers_get (layers : LayerStack) (key : string) :
  layers_get (map_levels f layers) key = level ← layers_get layers key ; Ok (f level).
Proof.
  unfold layers_get. rewrite dict_get_map_levels.
  by destruct (dict_get key layers).
Qed.

Lemma relevel_etch_loop (layers : LayerStack) (names : list string) : ∀ u d,
  etch_loop (map_levels f layers) names u d = etch_loop layers names u d.
Proof.
  induction names as [|n names IH]; intros u d; simpl; [done|].
  rewrite relevel_layers_get.
  destruct (layers_get layers n) as [lv|e]; simpl; [|done].
  rewrite relevel_into_or_empty.
  destruct (into_loop n (into_or_empty lv) u d). apply IH.
Qed.

Lemma relevel_classification (layers : LayerStack) :
  derived_classification (map_levels f layers) = derived_classification layers.
Proof.
  unfold derived_classification.
  by rewrite relevel_etch_layers, relevel_unetched_layers, relevel_etch_loop.
Qed.

End Relevel.

Section ZminOnly.

Variable g : float → float.

Local Abbreviation f := (λ level : LayerLevel, with_zmin (g (zmin level)) level).

Lemma zmin_only_foldl {V} (step : gmap (option LayerKey) V → LayerLevel →
      gmap (option LayerKey) V) (layers : LayerStack) :
  (∀ d level, step d (f level) = step d level) →
  ∀ d, foldl step d (map snd (map_levels f layers)) = foldl step d (map snd layers).
Proof.
  intros Hstep. unfold map_levels.
  induction layers as [|p l IH]; intros d; simpl; [done|]. by rewrite Hstep, IH.
Qed.

Lemma zmin_only_zmin_map (layers : LayerStack) :
  get_layer_to_zmin (map_levels f layers) = g <$> get_layer_to_zmin layers.
Proof.
  unfold get_layer_to_zmin. rewrite <- (fmap_empty g) at 1.
  generalize (∅ : gmap (option LayerKey) float). unfold map_levels.
  induction layers as [|p l IH]; intros d; simpl; [done|].
  destruct (float_truthy (thickness p.2)); [|apply IH].
  rewrite <- IH. by rewrite fmap_insert.
Qed.

End ZminOnly.

(** X3: with no level object held under two names, [z_offset] changes what
    the read-only functions see in one way only: the map of
    [get_layer_to_zmin] is shifted by [dz] entry by entry; the names, the maps
    of [get_layer_to_thickness], [get_layer_to_material] and
    [get_layer_to_sidewall_angle], and the etch classification are the same
    before and after. *)
Theorem X3_z_offset_accessors (store : gmap nat LayerLevel)
    (self : list (string * nat)) (dz : float) :
  NoDup (map snd self) →
  let before := stack_of store self in
  let after := stack_of (z_offset store self dz).2 self in
  map fst after = map fst before ∧
  get_layer_to_zmin after = (λ z, z + dz)%float <$> get_layer_to_zmin before ∧
  get_layer_to_thickness after = get_layer_to_thickness before ∧
  get_layer_to_material after = get_layer_to_material before ∧
  get_layer_to_sidewall_angle after = get_layer_to_sidewall_angle before ∧
  derived_classification after = derived_classification before.
Proof.
  intros Hnd before after.
  assert (after = map_levels
            (λ level, with_zmin ((λ z, z + dz)%float (zmin level)) level) before)
    as ->.
  { subst after before. apply stack_of_ext. intros p Hp.
    unfold z_offset. simpl. rewrite refs_or_empty_id, alter_fold_lookup.
    fold (ref_count self p.2). by rewrite (ref_count_NoDup self p Hnd Hp). }
  split; [apply map_levels_keys|].
  split; [apply (zmin_only_zmin_map (λ z, z + dz)%float)|].
  split; [by apply (zmin_only_foldl (λ z, z + dz)%float)|].
  split; [by apply (zmin_only_foldl (λ z, z + dz)%float)|].
  split; [by apply (zmin_only_foldl (λ z, z + dz)%float)|].
  by apply relevel_classification.
Qed.

Lemma X3_z_offset_accessors_witness :
  let before := stack_of shared_store plain_refs in
  let after := stack_of (z_offset shared_store plain_refs 0.5).2 plain_refs in
  map fst after = map fst before ∧
  get_layer_to_zmin after = (λ z, z + 0.5)%float <$> get_layer_to_zmin before ∧
  get_layer_to_thickness after = get_layer_to_thickness before ∧
  get_layer_to_material after = get_layer_to_material before ∧
  get_layer_to_sidewall_angle after = get_layer_to_sidewall_angle before ∧
  derived_classification after = derived_classification before.
Proof.
  apply (X3_z_offset_accessors shared_store plain_refs 0.5).
  apply (bool_decide_unpack _). vm_compute. exact I.
Defined.

Lemma invert_level_twice (level : LayerLevel) :
  with_zmin (zmin (with_zmin (zmin level * -1)%float level) * -1)%float
    (with_zmin (zmin level * -1)%float level) = level.
Proof.
  destruct level. unfold with_zmin. simpl. by rewrite float_mul_minus_one_twice.
Qed.

Lemma iter_involutive {A} (f : A → A) :
  (∀ x, f (f x) = x) → ∀ n x, Nat.iter n f (Nat.iter n f x) = x.
Proof.
  intros Hf. induction n as [|n IH]; intros x; simpl; [done|].
  by rewrite Nat.iter_swap, Hf, IH.
Qed.

(** X4: [invert_zaxis] applied twice gives back the store it started from,
    whatever the stack holds and shares: the product by [-1] is exact, and
    every object is negated an even number of times. *)
Theorem X4_invert_zaxis_twice (store : gmap nat LayerLevel)
    (self : list (string * nat)) :
  (invert_zaxis (invert_zaxis store self).2 self).1 = self ∧
  (invert_zaxis (invert_zaxis store self).2 self).2 = store.
Proof.
  split; [done|]. apply map_eq. intros ref.
  unfold invert_zaxis. simpl. rewrite refs_or_empty_id, !alter_fold_lookup.
  destruct (store !! ref) as [level|]; simpl; [|done]. f_equal.
  apply iter_involutive, invert_level_twice.
Qed.

(** X5: in the store after [invert_zaxis] an object has its [zmin] multiplied
    by [-1] once for every name of the stack that holds it; with no object
    held twice, the stack read after the call is the stack before with every
    [zmin] negated, and an object held under exactly two names keeps its
    [zmin]. *)
Theorem X5_invert_zaxis_store (store : gmap nat LayerLevel)
    (self : list (string * nat)) (ref : nat) :
  (invert_zaxis store self).2 !! ref =
    Nat.iter (ref_count self ref)
      (λ level, with_zmin (zmin level * -1)%float level) <$> store !! ref ∧
  (NoDup (map snd self) →
   stack_of (invert_zaxis store self).2 self =
   map_levels (λ level, with_zmin (- zmin level)%float level) (stack_of store self)) ∧
  (ref_count self ref = 2 → (invert_zaxis store self).2 !! ref = store !! ref).
Proof.
  assert ((invert_zaxis store self).2 !! ref =
    Nat.iter (ref_count self ref)
      (λ level, with_zmin (zmin level * -1)%float level) <$> store !! ref) as Hgen.
  { unfold invert_zaxis, ref_count. simpl.
    rewrite refs_or_empty_id. apply alter_fold_lookup. }
  split; [done|]. split.
  - intros Hnd. apply stack_of_ext. intros p Hp.
    unfold invert_zaxis. simpl. rewrite refs_or_empty_id, alter_fold_lookup.
    fold (ref_count self p.2). rewrite (ref_count_NoDup self p Hnd Hp).
    destruct (store !! p.2); simpl; [|done]. by rewrite float_mul_minus_one.
  - intros H2. rewrite Hgen, H2. destruct (store !! ref) as [level|]; [|done].
    change (Some (with_zmin (zmin (with_zmin (zmin level * -1)%float level) * -1)%float
      (with_zmin (zmin level * -1)%float level)) = Some level).
    by rewrite invert_level_twice.
Qed.

Lemma X5_invert_zaxis_store_witness :
  (invert_zaxis shared_store shared_refs).2 !! 0 = Some core_level ∧
  zmin <$> (invert_zaxis shared_store shared_refs).2 !! 1 = Some (-0.3205)%float ∧
  stack_of (invert_zaxis shared_store plain_refs).2 plain_refs =
  map_levels (λ level, with_zmin (- zmin level)%float level)
    (stack_of shared_store plain_refs).
Proof.
  split; [|split].
  - apply (X5_invert_zaxis_store shared_store shared_refs 0). reflexivity.
  - vm_compute. reflexivity.
  - apply (X5_invert_zaxis_store shared_store plain_refs 0).
    apply (bool_decide_unpack _). vm_compute. exact I.
Defined.

(** ** [bounds] and [__getitem__] *)


(** X7: [__getitem__] on a stack with distinct names returns a level exactly
    for the entries of the dict; for any other key it raises [ValueError]
    with the key and all the names of the stack in their order, where the
    plain lookup [layers[key]] raises [KeyError]; the two never differ on a
    key of the dict. *)
Theorem X7_getitem (self : LayerStack) (key : string) :
  wf_stack self →
  (∀ level, getitem self key = Ok level ↔ (key, level) ∈ self) ∧
  (∀ e, getitem self key = Raise e ↔
        ((key ∉ map fst self) ∧ e = ValueError key (map fst self))) ∧
  (key ∈ map fst self → getitem self key = layers_get self key) ∧
  (key ∉ map fst self → layers_get self key = Raise (KeyError_name key)).
Proof.
  intros Hwf. unfold getitem, layers_get.
  destruct (dict_get key self) as [lv|] eqn:E.
  - assert (key ∈ map fst self) as Hk.
    { apply list_elem_of_fmap. exists (key, lv).
      split; [done|]. by apply dict_get_Some_elem_of. }
    split; [|split; [|done]].
    + intros level. split; [intros [= <-]; by apply dict_get_Some_elem_of|].
      intros Hin. rewrite (dict_get_elem_of _ _ _ Hwf Hin) in E. congruence.
    + intros e. split; [done|]. by intros [? _].
  - assert (key ∉ map fst self) as Hk by by apply dict_get_None_keys.
    split; [|split; [|done]].
    + intros level. split; [done|]. intros Hin.
      by rewrite (dict_get_elem_of _ _ _ Hwf Hin) in E.
    + intros e. split; [by intros [= <-]|]. by intros [_ ->].
Qed.

Lemma X7_getitem_witness :
  getitem rib_stack "core" = Ok core_level ∧
  getitem rib_stack "clad" =
    Raise (ValueError "clad" ["core"; "shallow_etch"; "nitride"]) ∧
  (∀ level, getitem rib_stack "core" = Ok level ↔ ("core", level) ∈ rib_stack).
Proof.
  split; [reflexivity|]. split; [reflexivity|].
  apply (X7_getitem rib_stack "core").
  apply (bool_decide_unpack _). vm_compute. exact I.
Defined.

(** ** [filtered] *)

Lemma dict_get_dict_set {V} (k key : string) (v : V) (d : list (string * V)) :
  dict_get k (dict_set key v d) = if decide (k = key) then Some v else dict_get k d.
Proof.
  induction d as [|[k' w] d IH]; simpl.
  - destruct (decide (key = k)), (decide (k = key)); congruence.
  - destruct (decide (k' = key)) as [->|Hne]; simpl.
    + destruct (decide (key = k)), (decide (k = key)); congruence.
    + rewrite IH. destruct (decide (k' = k)), (decide (k = key)); congruence.
Qed.

Lemma dict_set_fresh {V} (key : string) (v : V) (d : list (string * V)) :
  key ∉ map fst d → dict_set key v d = d ++ [(key, v)].
Proof.
  induction d as [|[k w] d IH]; simpl; [done|].
  intros [Hne Hd]%not_elem_of_cons.
  rewrite decide_False by congruence. by rewrite IH.
Qed.

Lemma dict_set_keys_known {V} (key : string) (v : V) (d : list (string * V)) :
  key ∈ map fst d → map fst (dict_set key v d) = map fst d.
Proof.
  induction d as [|[k w] d IH]; simpl; [by intros ?%elem_of_nil|].
  intros Hin. destruct (decide (k = key)) as [->|Hne]; simpl; [done|].
  rewrite IH; [done|]. apply elem_of_cons in Hin as [?|?]; [congruence|done].
Qed.

Lemma dict_set_NoDup {V} (key : string) (v : V) (d : list (string * V)) :
  NoDup (map fst d) → NoDup (map fst (dict_set key v d)).
Proof.
  intros Hnd. destruct (decide (key ∈ map fst d)) as [Hin|Hin].
  - by rewrite dict_set_keys_known.
  - rewrite dict_set_fresh, map_app by done. simpl.
    apply NoDup_app. split; [done|]. split; [|apply NoDup_singleton].
    intros x Hx ->%list_elem_of_singleton. done.
Qed.

Lemma filtered_fold_NoDup (self : LayerStack) (names : list string) : ∀ acc,
  NoDup (map fst acc) →
  NoDup (map fst (foldl (λ d k,
    match dict_get k self with
    | Some level => dict_set k level d
    | None => d
    end) acc names)).
Proof.
  induction names as [|n names IH]; intros acc Hnd; simpl; [done|].
  apply IH. destruct (dict_get n self); [by apply dict_set_NoDup|done].
Qed.

Lemma filtered_fold_lookup (self : LayerStack) (names : list string) (k : string) :
  ∀ acc,
    dict_get k (foldl (λ d k,
      match dict_get k self with
      | Some level => dict_set k level d
      | None => d
      end) acc names) =
    if bool_decide (k ∈ names)
    then match dict_get k self with
         | Some level => Some level
         | None => dict_get k acc
         end
    else dict_get k acc.
Proof.
  induction names as [|n names IH]; intros acc; cbn [foldl].
  - case_bool_decide as H; [by apply elem_of_nil in H|done].
  - rewrite IH. destruct (decide (k = n)) as [->|Hne].
    + case_bool_decide as H1; case_bool_decide as H2;
        try (exfalso; apply H2, elem_of_cons; by left);
        destruct (dict_get n self) as [lv|] eqn:E; try done.
      by rewrite dict_get_dict_set, decide_True.
    + assert (dict_get k (match dict_get n self with
                          | Some level => dict_set n level acc
                          | None => acc
                          end) = dict_get k acc) as ->.
      { destruct (dict_get n self); [|done].
        by rewrite dict_get_dict_set, decide_False. }
      case_bool_decide as H1; case_bool_decide as H2; try done.
      * exfalso. apply H2, elem_of_cons. by right.
      * apply elem_of_cons in H2 as [?|?]; [congruence|done].
Qed.

Lemma filtered_fold_distinct (self : LayerStack) (names : list string) : ∀ acc,
  NoDup names → (∀ k, k ∈ names → k ∉ map fst acc) →
  foldl (λ d k,
    match dict_get k self with
    | Some level => dict_set k level d
    | None => d
    end) acc names =
  acc ++ omap (λ k, pair k <$> dict_get k self) names.
Proof.
  induction names as [|n names IH]; intros acc Hnd Hacc; simpl.
  - by rewrite app_nil_r.
  - apply NoDup_cons in Hnd as [Hn Hnd].
    assert (n ∉ map fst acc) as Hfresh by (apply Hacc, elem_of_cons; by left).
    destruct (dict_get n self) as [lv|] eqn:E; simpl.
    + rewrite dict_set_fresh by done. rewrite IH.
      * by rewrite <- app_assoc.
      * done.
      * intros k Hk. rewrite map_app. simpl.
        intros [Hin|Hin%list_elem_of_singleton]%elem_of_app.
        -- apply (Hacc k); [apply elem_of_cons; by right|done].
        -- congruence.
    + apply IH; [done|]. intros k Hk. apply Hacc, elem_of_cons. by right.
Qed.

Lemma filtered_distinct (self : LayerStack) (names : list string) :
  NoDup names →
  filtered self names = omap (λ k, pair k <$> dict_get k self) names.
Proof.
  intros Hnd. unfold filtered. rewrite filtered_fold_distinct; [done..|].
  intros k _. apply not_elem_of_nil.
Qed.

Lemma omap_own_names (self l : LayerStack) :
  (∀ p, p ∈ l → dict_get p.1 self = Some p.2) →
  omap (λ k, pair k <$> dict_get k self) (map fst l) = l.
Proof.
  induction l as [|[k lv] l IH]; intros H; [done|]. cbn.
  assert (dict_get k self = Some lv) as ->
    by (apply (H (k, lv)), elem_of_cons; by left).
  cbn. f_equal. apply IH. intros p Hp. apply H, elem_of_cons. by right.
Qed.

Lemma omap_ext_elem_of {A B} (f g : A → option B) (l : list A) :
  (∀ x, x ∈ l → f x = g x) → omap f l = omap g l.
Proof.
  induction l as [|x l IH]; intros H; [done|]. cbn.
  rewrite (H x) by (apply elem_of_cons; by left).
  rewrite IH; [done|]. intros y Hy. apply H, elem_of_cons. by right.
Qed.

(** X8: [filtered] gives a dict (its names are distinct, whatever [layers]
    repeats) in which a name is bound exactly when it is both among
    [layers] and a name of the stack, and then to the level the stack has
    for it. *)
Theorem X8_filtered_lookup (self : LayerStack) (layers : list string) (k : string) :
  wf_stack (filtered self layers) ∧
  dict_get k (filtered self layers) =
    (if bool_decide (k ∈ layers) then dict_get k self else None).
Proof.
  split.
  - apply filtered_fold_NoDup. constructor.
  - unfold filtered. rewrite filtered_fold_lookup. simpl.
    case_bool_decide; [|done]. by destruct (dict_get k self).
Qed.

(** X9: when [layers] names nothing twice, [filtered] lists the levels in the
    order of [layers] (not in the order of the stack), leaving out the names
    the stack does not have, and filtering a second time by the same names
    changes nothing. *)
Theorem X9_filtered_order (self : LayerStack) (layers : list string) :
  NoDup layers →
  filtered self layers = omap (λ k, pair k <$> dict_get k self) layers ∧
  filtered (filtered self layers) layers = filtered self layers.
Proof.
  intros Hnd. split; [by apply filtered_distinct|].
  transitivity (omap (λ k, pair k <$> dict_get k self) layers);
    [|symmetry; by apply filtered_distinct].
  rewrite (filtered_distinct (filtered self layers)) by done.
  apply omap_ext_elem_of. intros k Hk.
  unfold filtered. rewrite filtered_fold_lookup, bool_decide_true by done.
  simpl. by destruct (dict_get k self).
Qed.

Lemma X9_filtered_order_witness :
  map fst (filtered rib_stack ["nitride"; "clad"; "core"]) = ["nitride"; "core"] ∧
  filtered rib_stack ["nitride"; "clad"; "core"] =
    omap (λ k, pair k <$> dict_get k rib_stack) ["nitride"; "clad"; "core"] ∧
  filtered (filtered rib_stack ["nitride"; "clad"; "core"]) ["nitride"; "clad"; "core"] =
    filtered rib_stack ["nitride"; "clad"; "core"].
Proof.
  split; [reflexivity|].
  apply (X9_filtered_order rib_stack ["nitride"; "clad"; "core"]).
  apply (bool_decide_unpack _). vm_compute. exact I.
Defined.

(** X10: filtering a stack (a dict: distinct names) by all of its own names
    gives the stack back, order included. *)
Theorem X10_filtered_all (self : LayerStack) :
  wf_stack self → filtered self (map fst self) = self.
Proof.
  intros Hwf. rewrite filtered_distinct by done.
  apply omap_own_names. intros [k lv] Hin. by apply dict_get_elem_of.
Qed.

Lemma X10_filtered_all_witness :
  filtered rib_stack ["core"; "shallow_etch"; "nitride"] = rib_stack.
Proof.
  apply (X10_filtered_all rib_stack).
  apply (bool_decide_unpack _). vm_compute. exact I.
Defined.

(** ** The values of the accessors *)

Lemma layername_fold (items : LayerStack) (l : option LayerKey) :
  ∀ d : gmap (option LayerKey) (list string),
    foldl (λ d (p : string * LayerLevel),
      <[py_key (layer p.2) := default [] (d !! py_key (layer p.2)) ++ [p.1]]> d)
      d items !! l =
    match map fst (filter (λ p : string * LayerLevel, py_key (layer p.2) = l) items) with
    | [] => d !! l
    | names => Some (default [] (d !! l) ++ names)
    end.
Proof.
  unfold LayerStack in *.
  induction items as [|p items IH]; intros d; [done|].
  cbn [foldl]. rewrite IH, filter_cons.
  destruct (decide (py_key (layer p.2) = l)) as [<-|Hne].
  - rewrite lookup_insert_eq. cbn [map].
    destruct (map fst (filter _ items)) as [|n ns]; [done|].
    unfold default at 1. cbn [from_option id]. by rewrite <- app_assoc.
  - by rewrite lookup_insert_ne.
Qed.

(** X11: [get_layer_to_layername] maps a layer id (or [None], for the levels
    without one) to the names of all the levels that carry it, in stack
    order; an id that no level carries has no entry, so no entry is an empty
    list. *)
Theorem X11_layername_entries (self : LayerStack) (l : option LayerKey) :
  get_layer_to_layername self !! l =
  match map fst (filter (λ p : string * LayerLevel, py_key (layer p.2) = l) self) with
  | [] => None
  | names => Some names
  end.
Proof.
  unfold get_layer_to_layername. rewrite layername_fold, lookup_empty.
  by destruct (map fst _).
Qed.

Lemma foldl_insert_lookup {V}
    (f : gmap (option LayerKey) V → LayerLevel → gmap (option LayerKey) V)
    (keep : LayerLevel → bool) (val : LayerLevel → V) :
  (∀ d lv, f d lv = if keep lv then <[py_key (layer lv) := val lv]> d else d) →
  ∀ (levels : list LayerLevel) d (k : option LayerKey),
    foldl f d levels !! k =
    match last (filter (λ lv, keep lv ∧ py_key (layer lv) = k) levels) with
    | Some lv => Some (val lv)
    | None => d !! k
    end.
Proof.
  intros Hf. induction levels as [|lv levels IH]; intros d k; [done|].
  cbn [foldl]. rewrite IH, Hf, filter_cons.
  destruct (decide (keep lv ∧ py_key (layer lv) = k)) as [[Hk <-]|Hn].
  - rewrite last_cons. destruct (last _); [done|].
    destruct (keep lv); [|done]. by rewrite lookup_insert_eq.
  - destruct (last _); [done|].
    destruct (keep lv) eqn:Hk; [|done].
    rewrite lookup_insert_ne; [done|]. intros Hl. by apply Hn.
Qed.

(** X12: where two levels share a layer id, the later one in the stack wins:
    each accessor gives, for a layer id, the value of the last level it
    keeps for that id. *)
Theorem X12_accessor_values (self : LayerStack) (k : option LayerKey) :
  get_layer_to_thickness self !! k =
    thickness <$> last (filter (λ lv,
      (layer_truthy (layer lv) && float_truthy (thickness lv)) ∧ py_key (layer lv) = k)
      (map snd self)) ∧
  get_layer_to_zmin self !! k =
    zmin <$> last (filter (λ lv, float_truthy (thickness lv) ∧ py_key (layer lv) = k)
      (map snd self)) ∧
  get_layer_to_material self !! k =
    material <$> last (filter (λ lv, float_truthy (thickness lv) ∧ py_key (layer lv) = k)
      (map snd self)) ∧
  get_layer_to_sidewall_angle self !! k =
    sidewall_angle <$> last (filter (λ lv, float_truthy (thickness lv) ∧ py_key (layer lv) = k)
      (map snd self)).
Proof.
  split; [|split; [|split]].
  - unfold get_layer_to_thickness.
    rewrite (foldl_insert_lookup _
      (λ lv, layer_truthy (layer lv) && float_truthy (thickness lv)) thickness).
    2:{ intros d lv. unfold has_operator. by destruct (_ && _). }
    rewrite lookup_empty. by destruct (last _).
  - unfold get_layer_to_zmin.
    rewrite (foldl_insert_lookup _ (λ lv, float_truthy (thickness lv)) zmin) by done.
    rewrite lookup_empty. by destruct (last _).
  - unfold get_layer_to_material.
    rewrite (foldl_insert_lookup _ (λ lv, float_truthy (thickness lv)) material) by done.
    rewrite lookup_empty. by destruct (last _).
  - unfold get_layer_to_sidewall_angle.
    rewrite (foldl_insert_lookup _ (λ lv, float_truthy (thickness lv)) sidewall_angle)
      by done.
    rewrite lookup_empty. by destruct (last _).
Qed.

(** ** What the builder reads of a level *)

Section BuilderFrame.

Variables Polygon Region Port : Type.
Variable region_new : Region.
Variable region_of : list Polygon → Region.
Variable region_or : Region → Region → Region.
Variable region_and : Region → Region → Region.
Variable region_sub : Region → Region → Region.
Variable get_layer : option Layer → option Layer.
Variable extract :
  gmap (option LayerKey) (list Polygon) → list (option Layer) →
  gmap (option LayerKey) (list (Shape Polygon Region)).

Variable f : LayerLevel → LayerLevel.
Hypothesis f_layer : ∀ level, layer (f level) = layer level.
Hypothesis f_layer_type : ∀ level, layer_type (f level) = layer_type level.
Hypothesis f_into : ∀ level, into (f level) = into level.
Hypothesis f_derived_layer :
  ∀ level, is_Some (derived_layer (f level)) ↔ is_Some (derived_layer level).





End BuilderFrame.


(** ** What the emitter reads of a level, and of [dbu] *)

Section ScriptFrame.

Variable float_str : float → string.
Variable py_round : float → nat → float.

Variable f : LayerLevel → LayerLevel.
Hypothesis f_layer : ∀ level, layer (f level) = layer level.
Hypothesis f_layer_type : ∀ level, layer_type (f level) = layer_type level.
Hypothesis f_into : ∀ level, into (f level) = into level.
Hypothesis f_material : ∀ level, material (f level) = material level.
Hypothesis f_zmin : ∀ level, zmin (f level) = zmin level.
Hypothesis f_thickness : ∀ level, thickness (f level) = thickness level.

Lemma relevel_layers_or_empty (self : LayerStack) :
  layers_or_empty (map_levels f self) = map_levels f self.
Proof. by destruct self. Qed.

Lemma relevel_input_lines (layers : LayerStack) :
  input_lines (map_levels f layers) = input_lines layers.
Proof.
  induction layers as [|[n lv] layers IH]; simpl; [done|].
  by rewrite f_layer, IH.
Qed.

Lemma relevel_slab_definitions (layers : LayerStack) : ∀ out,
  slab_definitions (map_levels f layers) out = slab_definitions layers out.
Proof.
  induction layers as [|[n lv] layers IH]; intros out; simpl; [done|].
  by rewrite IH, f_layer_type, (relevel_into_or_empty f f_into).
Qed.

Lemma relevel_rounded_bounds (dbu : option float) (level : LayerLevel) :
  rounded_bounds float_str py_round dbu (f level) =
  rounded_bounds float_str py_round dbu level.
Proof. unfold rounded_bounds. by rewrite f_zmin, f_thickness. Qed.

Lemma relevel_z_slabs (layers : LayerStack) lv n (level : LayerLevel) l into :
  ∀ i out sl,
    z_slabs float_str (map_levels f layers) lv n (f level) l i into out sl =
    z_slabs float_str layers lv n level l i into out sl.
Proof.
  induction into as [|t into IH]; intros i out sl; simpl; [done|].
  rewrite relevel_layers_get.
  destruct (layers_get layers t) as [T|e]; simpl; [|done].
  by rewrite IH, !f_zmin, !f_thickness, f_material.
Qed.

Lemma relevel_z_levels (layers : LayerStack) lv dbu u (items : LayerStack) :
  ∀ out sl,
    z_levels float_str py_round (map_levels f layers) lv dbu u
      (map_levels f items) out sl =
    z_levels float_str py_round layers lv dbu u items out sl.
Proof.
  induction items as [|[n level] items IH]; intros out sl; simpl; [done|].
  rewrite relevel_rounded_bounds.
  destruct (rounded_bounds float_str py_round dbu level) as [z1 z2].
  rewrite f_layer, f_layer_type, f_material, (relevel_into_or_empty f f_into).
  destruct (layer level) as [l|]; [|apply IH].
  case_bool_decide.
  - rewrite relevel_z_slabs.
    destruct (z_slabs _ _ _ _ _ _ _ _ _ _) as [[o s]|e]; simpl; [apply IH|done].
  - case_bool_decide; apply IH.
Qed.

Lemma relevel_z_unetched (self : LayerStack) lv d sl : ∀ out,
  z_unetched float_str (map_levels f self) lv d sl out =
  z_unetched float_str self lv d sl out.
Proof.
  induction d as [|[t es] d IH]; intros out; simpl; [done|].
  rewrite relevel_layers_get.
  destruct (layers_get self t) as [T|e]; simpl; [|done].
  destruct sl as [s|]; [|done].
  rewrite f_layer. destruct (layer T) as [l|]; [|done].
  by rewrite IH, f_zmin, f_thickness, f_material.
Qed.

(** X14: the emitter reads of a level only [layer], [layer_type], [into],
    [material], [zmin] and [thickness]: a change of the levels that keeps
    these six (other sidewall angles, other derived layers) leaves the script,
    or the exception, the same. *)
Theorem X14_script_reads (self : LayerStack) (layer_views : option LayerViews)
    (dbu : option float) :
  get_klayout_3d_script float_str py_round (map_levels f self) layer_views dbu =
  get_klayout_3d_script float_str py_round self layer_views dbu.
Proof.
  unfold get_klayout_3d_script.
  rewrite !script_classification_eq, relevel_classification by done.
  rewrite relevel_layers_or_empty, layers_or_empty_id.
  destruct (derived_classification self) as [[u d]|e]; simpl; [|done].
  rewrite relevel_input_lines, relevel_slab_definitions, relevel_z_levels.
  destruct (z_levels _ _ _ _ _ _ _ _ _) as [[o s]|e]; simpl; [|done].
  apply relevel_z_unetched.
Qed.

End ScriptFrame.

Lemma X14_script_reads_witness :
  map_levels script_fields rib_stack ≠ rib_stack ∧
  get_klayout_3d_script PyFloat.float_repr PyFloat.float_round
    (map_levels script_fields rib_stack) None (Some 0.001%float) =
  get_klayout_3d_script PyFloat.float_repr PyFloat.float_round
    rib_stack None (Some 0.001%float).
Proof.
  split; [discriminate|].
  by apply (X14_script_reads PyFloat.float_repr PyFloat.float_round script_fields).
Defined.

Section ScriptDbu.

Variable float_str : float → string.
Variable py_round : float → nat → float.

Lemma rounded_bounds_places (dbu1 dbu2 : option float) (level : LayerLevel) :
  rounding_places float_str dbu1 = rounding_places float_str dbu2 →
  rounded_bounds float_str py_round dbu1 level =
  rounded_bounds float_str py_round dbu2 level.
Proof.
  unfold rounding_places, rounded_bounds.
  destruct dbu1 as [d1|], dbu2 as [d2|]; try destruct (float_truthy d1);
    try destruct (float_truthy d2); try done; by intros [= ->].
Qed.

Lemma z_levels_places (layers : LayerStack) lv (dbu1 dbu2 : option float) u
    (items : LayerStack) :
  rounding_places float_str dbu1 = rounding_places float_str dbu2 →
  ∀ out sl,
    z_levels float_str py_round layers lv dbu1 u items out sl =
    z_levels float_str py_round layers lv dbu2 u items out sl.
Proof.
  intros Hp. induction items as [|[n level] items IH]; intros out sl; simpl; [done|].
  rewrite (rounded_bounds_places dbu1 dbu2 level Hp).
  destruct (rounded_bounds float_str py_round dbu2 level) as [z1 z2].
  destruct (layer level) as [l|]; [|apply IH].
  case_bool_decide.
  - destruct (z_slabs _ _ _ _ _ _ _ _ _ _) as [[o s]|e]; simpl; [apply IH|done].
  - case_bool_decide; by rewrite IH.
Qed.

(** X15: the script depends on [dbu] only through the number of decimals of
    its text: [dbu = 0.0] (or [-0.0]) gives the script of [dbu = None], with
    nothing rounded, and two values of [dbu] printed with as many characters
    after the point give the same script. *)
Theorem X15_script_dbu (self : LayerStack) (layer_views : option LayerViews)
    (dbu1 dbu2 : option float) :
  rounding_places float_str dbu1 = rounding_places float_str dbu2 →
  get_klayout_3d_script float_str py_round self layer_views dbu1 =
  get_klayout_3d_script float_str py_round self layer_views dbu2.
Proof.
  intros Hp. unfold get_klayout_3d_script.
  destruct (script_classification self) as [[u d]|e]; simpl; [|done].
  by rewrite (z_levels_places _ _ dbu1 dbu2 _ _ Hp).
Qed.

End ScriptDbu.

Lemma X15_script_dbu_witness :
  get_klayout_3d_script PyFloat.float_repr PyFloat.float_round
    rib_stack None (Some 0%float) =
  get_klayout_3d_script PyFloat.float_repr PyFloat.float_round rib_stack None None ∧
  get_klayout_3d_script PyFloat.float_repr PyFloat.float_round
    rib_stack None (Some 0.005%float) = Ok rib_script.
Proof.
  split.
  - by apply (X15_script_dbu PyFloat.float_repr PyFloat.float_round).
  - rewrite <- rib_script_eval.
    apply (X15_script_dbu PyFloat.float_repr PyFloat.float_round).
    vm_compute. reflexivity.
Defined.

(** ** When the emitter and the builder return, and what they raise *)

Section ScriptOutcome.

Variable float_str : float → string.
Variable py_round : float → nat → float.

Lemma z_levels_raise (layers : LayerStack) lv dbu u (items : LayerStack) :
  ∀ out sl ex,
    z_levels float_str py_round layers lv dbu u items out sl = Raise ex →
    ∃ n E t, (n, E) ∈ items ∧ is_Some (layer E) ∧ layer_type E = etch ∧
      t ∈ into_or_empty E ∧ dict_get t layers = None ∧ ex = KeyError_name t.
Proof.
  induction items as [|[n E] items IH]; intros out sl ex; simpl; [done|].
  assert (∀ out1 sl1,
    z_levels float_str py_round layers lv dbu u items out1 sl1 = Raise ex →
    ∃ n0 E0 t, (n0, E0) ∈ (n, E) :: items ∧ is_Some (layer E0) ∧
      layer_type E0 = etch ∧ t ∈ into_or_empty E0 ∧ dict_get t layers = None ∧
      ex = KeyError_name t) as Htail.
  { intros out1 sl1 H. apply IH in H as (n0 & E0 & t & Hin & H).
    exists n0, E0, t. split; [apply elem_of_cons; by right|done]. }
  destruct (rounded_bounds float_str py_round dbu E) as [z1 z2].
  destruct (layer E) as [l|] eqn:Hl; [|apply Htail].
  case_bool_decide as Hty; [|case_bool_decide; apply Htail].
  destruct (z_slabs _ _ _ _ _ _ _ _ _ _) as [[o s]|e] eqn:Hs; simpl; [apply Htail|].
  intros [= ->]. apply z_slabs_raise in Hs as (k & -> & Hk & Hnone).
  exists n, E, k. split; [apply elem_of_cons; by left|]. by rewrite Hl.
Qed.

Lemma z_unetched_raise (self : LayerStack) lv d sl : ∀ out ex,
  z_unetched float_str self lv d sl out = Raise ex →
  ∃ entry, entry ∈ d ∧
    ((dict_get entry.1 self = None ∧ ex = KeyError_name entry.1) ∨
     ex = UnboundLocalError ∨
     (∃ T, dict_get entry.1 self = Some T ∧ layer T = None ∧ ex = TypeError)).
Proof.
  induction d as [|[t es] d IH]; intros out ex; simpl; [done|].
  unfold layers_get. destruct (dict_get t self) as [T|] eqn:Ht; simpl.
  - destruct sl as [s|].
    + destruct (layer T) as [l|] eqn:Hl.
      * intros H. apply IH in H as (entry & Hin & H).
        exists entry. split; [apply elem_of_cons; by right|done].
      * intros [= <-]. exists (t, es). split; [apply elem_of_cons; by left|].
        right. right. by exists T.
    + intros [= <-]. exists (t, es). split; [apply elem_of_cons; by left|].
      right. by left.
  - intros [= <-]. exists (t, es). split; [apply elem_of_cons; by left|]. by left.
Qed.

(** X16: on a stack with distinct names the emitter returns a script exactly
    when every name in the [into] of an etch level with a layer id (one that
    is not [None]: the test of line 258) is a name of the stack, and every
    name in the [into] of an etch level whose layer id passes the truth test
    of line 209 is the name of a level with a layer id. *)
Theorem X16_script_returns_iff (self : LayerStack)
    (layer_views : option LayerViews) (dbu : option float) :
  wf_stack self →
  (∃ out, get_klayout_3d_script float_str py_round self layer_views dbu = Ok out) ↔
  (∀ e E t, (e, E) ∈ self → is_Some (layer E) → layer_type E = etch →
     t ∈ into_or_empty E → is_Some (dict_get t self)) ∧
  (∀ e E t T, (e, E) ∈ self → layer_truthy (layer E) → layer_type E = etch →
     t ∈ into_or_empty E → dict_get t self = Some T → is_Some (layer T)).
Proof.
  intros Hwf. split; [|intros [H1 H2]; by apply script_returns].
  intros [out Hout].
  apply script_text in Hout as (u & d & Hc & _ & Hres & Hall).
  split; [exact Hres|]. intros e E t T Hin Hl Hty Ht HT.
  rewrite script_classification_eq in Hc.
  destruct (classification_covers self u d t e Hwf Hc) as [es Hes].
  { apply elem_of_etch_references. by exists E. }
  rewrite Forall_forall in Hall.
  destruct (Hall (t, es) Hes) as (T' & l & HT' & Hl').
  simpl in HT'. rewrite HT in HT'. injection HT' as <-. by rewrite Hl'.
Qed.

(** X17: on a stack with distinct names the emitter raises nothing but the
    [KeyError] of a name in the [into] of an etch level with a layer id that
    is not a name of the stack, and the [TypeError] of reading the layer id of
    such a target that has none. *)
Theorem X17_script_raises (self : LayerStack)
    (layer_views : option LayerViews) (dbu : option float) (ex : exn) :
  wf_stack self →
  get_klayout_3d_script float_str py_round self layer_views dbu = Raise ex →
  ∃ e E t, (e, E) ∈ self ∧ is_Some (layer E) ∧ layer_type E = etch ∧
    t ∈ into_or_empty E ∧
    ((dict_get t self = None ∧ ex = KeyError_name t) ∨
     (∃ T, dict_get t self = Some T ∧ layer T = None ∧ ex = TypeError)).
Proof.
  intros Hwf Hex.
  assert (ex ≠ UnboundLocalError) as Hub.
  { intros ->. by apply (script_never_unbound float_str py_round self
                           layer_views dbu Hwf). }
  unfold get_klayout_3d_script in Hex. rewrite layers_or_empty_id in Hex.
  rewrite script_classification_eq in Hex.
  destruct (derived_classification_Ok self) as (u & d & Hc).
  rewrite Hc in Hex. simpl in Hex.
  destruct (z_levels _ _ _ _ _ _ _ _ _) as [[out1 sl]|ex1] eqn:Hz; simpl in Hex.
  - apply z_unetched_raise in Hex as ([t es] & Hin & Hcase).
    destruct (classification_keys self u d Hwf Hc (t, es) Hin) as [e He].
    apply elem_of_etch_references in He as (E & HinE & Hl & Hty & Ht).
    exists e, E, t. split; [done|]. split; [by apply layer_truthy_is_Some|].
    split; [done|]. split; [done|]. simpl in Hcase.
    destruct Hcase as [[Hnone ->]|[->|(T & HT & HlT & ->)]]; [by left|done|].
    right. by exists T.
  - injection Hex as ->.
    apply z_levels_raise in Hz as (n & E & t & Hin & Hl & Hty & Ht & Hnone & ->).
    exists n, E, t. repeat (split; [done|]). by left.
Qed.

End ScriptOutcome.

Lemma X16_script_returns_iff_witness :
  (∃ out, get_klayout_3d_script PyFloat.float_repr PyFloat.float_round
            rib_stack None (Some 0.001%float) = Ok out) ∧
  (∃ out, get_klayout_3d_script PyFloat.float_repr PyFloat.float_round
            wafer_trench_stack None (Some 0.001%float) = Ok out) ∧
  get_klayout_3d_script PyFloat.float_repr PyFloat.float_round
    bare_target_stack None (Some 0.001%float) = Raise TypeError ∧
  ((∃ out, get_klayout_3d_script PyFloat.float_repr PyFloat.float_round
             dangling_stack None (Some 0.001%float) = Ok out) ↔
   (∀ e E t, (e, E) ∈ dangling_stack → is_Some (layer E) → layer_type E = etch →
      t ∈ into_or_empty E → is_Some (dict_get t dangling_stack)) ∧
   (∀ e E t T, (e, E) ∈ dangling_stack → layer_truthy (layer E) →
      layer_type E = etch → t ∈ into_or_empty E →
      dict_get t dangling_stack = Some T → is_Some (layer T))).
Proof.
  split; [by eexists|]. split; [by eexists|]. split; [reflexivity|].
  apply (X16_script_returns_iff PyFloat.float_repr PyFloat.float_round
           dangling_stack None (Some 0.001%float)).
  apply (bool_decide_unpack _). vm_compute. exact I.
Defined.

Lemma X17_script_raises_witness :
  get_klayout_3d_script PyFloat.float_repr PyFloat.float_round
    bare_target_stack None (Some 0.001%float) = Raise TypeError ∧
  get_klayout_3d_script PyFloat.float_repr PyFloat.float_round
    dangling_stack None (Some 0.001%float) = Raise (KeyError_name "slab90") ∧
  ∃ e E t, (e, E) ∈ dangling_stack ∧ is_Some (layer E) ∧ layer_type E = etch ∧
    t ∈ into_or_empty E ∧
    ((dict_get t dangling_stack = None ∧ KeyError_name "slab90" = KeyError_name t) ∨
     (∃ T, dict_get t dangling_stack = Some T ∧ layer T = None ∧
           KeyError_name "slab90" = TypeError)).
Proof.
  split; [reflexivity|]. split; [reflexivity|].
  apply (X17_script_raises PyFloat.float_repr PyFloat.float_round
           dangling_stack None (Some 0.001%float)).
  - apply (bool_decide_unpack _). vm_compute. exact I.
  - reflexivity.
Defined.

Section BuilderOutcome.

Variables Polygon Region Port : Type.
Variable region_new : Region.
Variable region_of : list Polygon → Region.
Variable region_or : Region → Region → Region.
Variable region_and : Region → Region → Region.
Variable region_sub : Region → Region → Region.
Variable get_layer : option Layer → option Layer.
Variable extract :
  gmap (option LayerKey) (list Polygon) → list (option Layer) →
  gmap (option LayerKey) (list (Shape Polygon Region)).

Lemma classification_nil (layer_stack : LayerStack) u :
  wf_stack layer_stack → derived_classification layer_stack = Ok (u, []) →
  etch_references layer_stack = [].
Proof.
  intros Hwf Hc. destruct (etch_references layer_stack) as [|[t e] refs] eqn:E;
    [done|].
  destruct (classification_covers layer_stack u [] t e Hwf Hc) as [es Hes].
  { rewrite E. apply elem_of_cons. by left. }
  by apply elem_of_nil in Hes.
Qed.

(** X18: on a stack with distinct names the builder returns a component
    exactly when nothing is etched: no etch level whose layer id passes the
    truth test of line 395 names a layer in its [into].  As soon as one does,
    the loop of lines 420-454 ends in an exception. *)
Theorem X18_builder_returns_iff
    (polygons_per_layer : gmap (option LayerKey) (list Polygon))
    (component_ports : list Port) (layer_stack : LayerStack) :
  wf_stack layer_stack →
  (∃ out, get_component_with_derived_layers region_new region_of region_or
            region_and region_sub get_layer extract polygons_per_layer
            component_ports layer_stack = Ok out) ↔
  (∀ e E, (e, E) ∈ layer_stack → layer_truthy (layer E) →
     layer_type E = etch → into_or_empty E = []).
Proof.
  intros Hwf. destruct (derived_classification_Ok layer_stack) as (u & d & Hc).
  rewrite (builder_outcome _ _ _ _ _ _ _ _ _ _ _ _ _ u d Hwf Hc). split.
  - intros [out Hout] e E Hin Hl Hty.
    destruct (into_or_empty E) as [|t ts] eqn:Hinto; [done|].
    destruct (classification_covers layer_stack u d t e Hwf Hc) as [es Hes].
    { apply elem_of_etch_references. exists E. rewrite Hinto.
      repeat (split; [done|]). apply elem_of_cons. by left. }
    destruct d as [|[t0 es0] d]; [by apply elem_of_nil in Hes|].
    by destruct (dict_get t0 layer_stack).
  - intros Hnone. destruct d as [|[t0 es0] d]; [by eexists|].
    destruct (classification_keys layer_stack u _ Hwf Hc (t0, es0)) as [e0 He0].
    { apply elem_of_cons. by left. }
    apply elem_of_etch_references in He0 as (E0 & Hin0 & Hl0 & Hty0 & Ht0).
    rewrite (Hnone e0 E0 Hin0 Hl0 Hty0) in Ht0. by apply elem_of_nil in Ht0.
Qed.

(** X22: on a stack with distinct names, a component that the builder
    returns is the one that [extract] gives for the layer ids of the grow
    levels whose layer id passes the truth test of line 390 and is a key of
    the snapshot, in stack order, with the ports of the input: the builder
    adds no shape of its own to a component it returns. *)
Theorem X22_builder_output
    (polygons_per_layer : gmap (option LayerKey) (list Polygon))
    (component_ports : list Port) (layer_stack : LayerStack)
    (out : Component Polygon Region Port) :
  wf_stack layer_stack →
  get_component_with_derived_layers region_new region_of region_or region_and
    region_sub get_layer extract polygons_per_layer component_ports layer_stack
    = Ok out →
  out = {| shapes := extract polygons_per_layer
                       (grow_layer_ids layer_stack polygons_per_layer);
           ports := component_ports |}.
Proof.
  intros Hwf. destruct (derived_classification_Ok layer_stack) as (u & d & Hc).
  rewrite (builder_outcome _ _ _ _ _ _ _ _ _ _ _ _ _ u d Hwf Hc).
  destruct d as [|[t0 es0] d]; [|by destruct (dict_get t0 layer_stack)].
  rewrite grow_layer_ids_unetched by by apply (classification_nil _ u).
  by intros [= <-].
Qed.

End BuilderOutcome.

Lemma X18_builder_returns_iff_witness :
  Cells.derive pdk_polygons ["o1"] pdk_stack = Raise TypeError ∧
  ((∃ out, Cells.derive pdk_polygons ["o1"] pdk_grow_stack = Ok out) ↔
   (∀ e E, (e, E) ∈ pdk_grow_stack → layer_truthy (layer E) →
      layer_type E = etch → into_or_empty E = [])).
Proof.
  split; [reflexivity|].
  apply (X18_builder_returns_iff Cells.Polygon Cells.Region Cells.Port
           Cells.region_new Cells.region_of Cells.region_or Cells.region_and
           Cells.region_sub Cells.get_layer Cells.extract pdk_polygons ["o1"]
           pdk_grow_stack).
  apply (bool_decide_unpack _). vm_compute. exact I.
Defined.

Lemma X22_builder_output_witness :
  grow_layer_ids wafer_stack wafer_polygons = [Some LAYER_WG] ∧
  ∃ out, Cells.derive wafer_polygons ["o1"] wafer_stack = Ok out ∧
    out = {| shapes := Cells.extract wafer_polygons
                         (grow_layer_ids wafer_stack wafer_polygons);
             ports := ["o1"] |}.
Proof.
  split; [reflexivity|].
  destruct (Cells.derive wafer_polygons ["o1"] wafer_stack) as [out|ex] eqn:Hout.
  - exists out. split; [done|].
    apply (X22_builder_output Cells.Polygon Cells.Region Cells.Port
             Cells.region_new Cells.region_of Cells.region_or Cells.region_and
             Cells.region_sub Cells.get_layer Cells.extract wafer_polygons ["o1"]
             wafer_stack out); [|exact Hout].
    apply (bool_decide_unpack _). vm_compute. exact I.
  - exfalso. vm_compute in Hout. discriminate Hout.
Defined.

(** ** The number of decimals read off the text of [dbu] *)

Lemma split_dot_nonempty (s : string) : split_dot s ≠ [].
Proof.
  induction s as [|c s IH]; simpl; [done|].
  destruct (Ascii.eqb c "."); [done|]. by destruct (split_dot s).
Qed.

Lemma split_dot_app (a b : string) :
  split_dot (a +:+ "." +:+ b) = split_dot a ++ split_dot b.
Proof.
  induction a as [|c a IH]; [done|].
  rewrite str_app_cons. simpl. rewrite IH.
  destruct (Ascii.eqb c "."); [done|].
  pose proof (split_dot_nonempty a). by destruct (split_dot a).
Qed.

Lemma split_dot_plain (s : string) :
  "."%char ∉ list_ascii_of_string s → split_dot s = [s].
Proof.
  induction s as [|c s IH]; simpl; [done|].
  intros [Hc Hs]%not_elem_of_cons.
  destruct (Ascii.eqb_spec c "."); [congruence|]. by rewrite IH.
Qed.

Lemma last_app_nonempty {A} (l1 l2 : list A) (d : A) :
  l2 ≠ [] → List.last (l1 ++ l2) d = List.last l2 d.
Proof.
  intros Hne. induction l1 as [|x l1 IH]; [done|].
  simpl. rewrite IH. destruct (l1 ++ l2) eqn:E; [|done].
  apply app_eq_nil in E as [_ ->]. done.
Qed.

(** X23: [len(s.split(".")[-1])] counts the characters after the last point
    of [s], and all the characters of a text without point: a [dbu] printed
    as [0.001] gives 3 decimals, and one printed with an exponent and no
    point, as [1e-05], gives the length of that text. *)
Theorem X23_decimals_of (a b : string) :
  "."%char ∉ list_ascii_of_string b →
  decimals_of (a +:+ "." +:+ b) = String.length b ∧
  decimals_of b = String.length b.
Proof.
  intros Hb. unfold decimals_of.
  rewrite split_dot_app, last_app_nonempty by apply split_dot_nonempty.
  by rewrite split_dot_plain.
Qed.

Lemma X23_decimals_of_witness :
  decimals_of ("0" +:+ "." +:+ "001") = 3 ∧ decimals_of "001" = 3.
Proof.
  apply (X23_decimals_of "0" "001").
  apply (bool_decide_unpack _). vm_compute. exact I.
Defined.
